(** * streamlit_app.py: document Q&A handler

    A shallow embedding of [src/streamlit_app.py].  The script is one
    handler, [main], that Streamlit re-runs from the top on every user
    interaction.  It reads the widgets, mutates [st.session_state], calls
    the generative-model SDK and the spreadsheet SDK, and writes to the
    page.

    - Python exceptions are explicit: a computation returns [Ok v] or
      [Raise e], and [try_except] is the [try: ... except Exception as e:]
      block.  Only exceptions derived from [Exception] are modelled.
    - [st.session_state] is a record of optional fields (a key may be
      absent before the first run).
    - What the widgets return in a run is the input of that run, the
      record [Interaction]; the [value=] default of a widget plays no
      part.  Layout ([st.columns], [with col:], [st.spinner]) changes
      neither the state nor the calls and is left out.
    - The SDKs are not part of the repository; they are the fields of an
      environment [Env], each a function of a hidden world state that may
      return or raise.  A response object is its [text] property, which
      yields the text or raises (the SDK raises when the response has no
      valid part); a list handed to the SDK is handed over by value.
    - Every SDK call and every page output is logged as an [event], in
      program order, so that properties about what was called, how often
      and in which order can be stated. *)

From Stdlib Require Import String Ascii List Bool Arith ZArith Lia.
From Stdlib Require Import Strings.Byte.
Import ListNotations.
Local Open Scope list_scope.
Local Open Scope string_scope.
Set Warnings "-register-all".

(** ** Python values *)

(** An exception caught by [except Exception as e]; only [str(e)] is ever
    read by the program. *)
Inductive Exn : Type := Exception (msg : string).

Definition str_of_exn (e : Exn) : string := let 'Exception m := e in m.

Inductive result (A : Type) : Type :=
| Ok (a : A)
| Raise (e : Exn).
Arguments Ok {A} a.
Arguments Raise {A} e.

Definition bytes := list byte.

(** The value [json.load] returns.  [JNull] is Python's [None], which is
    also the default of [google_sheet_credentials].  Numbers with a
    fraction are left out: a service-account key is a dictionary of
    strings. *)
Inductive Json : Type :=
| JNull
| JBool (b : bool)
| JInt (z : Z)
| JStr (s : string)
| JList (items : list Json)
| JDict (items : list (string * Json)).

(** Python truth value of a string: [if s:]. *)
Definition nonempty (s : string) : bool :=
  match s with
  | EmptyString => false
  | String _ _ => true
  end.

(** Python truth value of a decoded JSON value: [if v and ...]. *)
Definition truthy (v : Json) : bool :=
  match v with
  | JNull => false
  | JBool b => b
  | JInt z => negb (Z.eqb z 0)
  | JStr s => nonempty s
  | JList items => negb (Nat.eqb (length items) 0)
  | JDict items => negb (Nat.eqb (length items) 0)
  end.

(** [sub in s] on strings. *)
Fixpoint str_in (sub s : string) : bool :=
  String.prefix sub s ||
  match s with
  | EmptyString => false
  | String _ s' => str_in sub s'
  end.

Definition nl : string := String "010"%char EmptyString.

(** The f-string [f"{what}{e}"] of the exception handlers. *)
Definition error_text (what : string) (e : Exn) : string := what ++ str_of_exn e.

(** Line 31: the f-string of the success message. *)
Definition saved_text (sheet_name worksheet_name : string) : string :=
  "Data saved to Google Sheet '" ++ sheet_name
  ++ "' (worksheet '" ++ worksheet_name ++ "')".

(** The f-strings of lines 78, 93, 105 and 119. *)
Definition summarize_head : string := "Summarize the following document:".

Definition analysis_head : string :=
  "Based on the following document content, propose relevant statistical analysis methods and why they are suitable:".

Definition quiz_head : string :=
  "Generate a multiple-choice quiz with answers based on the following document content:".

Definition summarize_prompt (doc : string) : string :=
  summarize_head ++ nl ++ nl ++ doc.

Definition analysis_prompt (doc : string) : string :=
  analysis_head ++ nl ++ nl ++ doc.

Definition quiz_prompt (doc : string) : string :=
  quiz_head ++ nl ++ nl ++ doc.

Definition chat_prompt (doc question : string) : string :=
  "Document content: " ++ doc ++ nl ++ nl ++ "User question: " ++ question.

(** Streamlit's [UploadedFile]: the attributes the program reads. *)
Record UploadedFile : Type := {
  name : string;
  type : string;
  getvalue : bytes
}.

(** One entry of [chat_history]: [{"role": r, "parts": [...]}]. *)
Record Turn : Type := {
  role : string;
  parts : list string
}.

(** Lines 120 and 121: the two dictionaries appended to the history. *)
Definition user_turn (question : string) : Turn :=
  {| role := "user"; parts := [question] |}.

Definition model_turn (response_text : string) : Turn :=
  {| role := "model"; parts := [response_text] |}.

(** The object returned by [generate_content] and [send_message].  The
    program reads only its [text] property, and each read either yields
    the text or raises. *)
Record Response : Type := { text : result string }.

(** ** The libraries the program calls *)

Record Env : Type := {
  World : Type;
  Model : Type;
  ChatSession : Type;
  Client : Type;
  Spreadsheet : Type;
  Worksheet : Type;
  PdfPage : Type;
  (* bytes.decode("utf-8") *)
  decode_utf8 : bytes -> result string;
  (* PyPDF2.PdfReader(io.BytesIO(b)).pages *)
  PdfReader : bytes -> result (list PdfPage);
  (* page.extract_text() *)
  extract_text : PdfPage -> result string;
  (* json.load(f) *)
  json_load : bytes -> result Json;
  (* google.generativeai *)
  genai_configure : string -> World -> result unit * World;
  GenerativeModel : string -> World -> result Model * World;
  generate_content : Model -> string -> World -> result Response * World;
  start_chat : Model -> list Turn -> World -> result ChatSession * World;
  send_message : ChatSession -> string -> World -> result Response * World;
  (* gspread *)
  service_account_from_dict : Json -> World -> result Client * World;
  gc_open : Client -> string -> World -> result Spreadsheet * World;
  sh_worksheet : Spreadsheet -> string -> World -> result Worksheet * World;
  append_row : Worksheet -> list string -> World -> result unit * World
}.

(** ** Observable events *)

Inductive call : Type :=
| CConfigure (api_key : string)
| CGenerativeModel (model_name : string)
| CGenerateContent (prompt : string)
| CStartChat (history : list Turn)
| CSendMessage (message : string)
| CServiceAccount (credentials : Json)
| COpen (sheet_name : string)
| CWorksheet (worksheet_name : string)
| CAppendRow (data : list string).

Inductive reply : Type :=
| Raised (e : Exn)
| Returned
| Responded (response_text : result string).

Inductive ui : Type :=
| UiTitle (s : string)
| UiSuccess (s : string)
| UiWarning (s : string)
| UiError (s : string)
| UiSubheader (s : string)
| UiWrite (s : string)
| UiSidebarSubheader (s : string)
| UiSidebarSuccess (s : string)
| UiSidebarInfo (s : string)
| UiChatMessage (role_ text_ : string).

Inductive event : Type :=
| Called (c : call) (r : reply)
| Shown (u : ui).

(** ** Session state and widget values *)

Record SessionState : Type := {
  gemini_api_key : option string;
  chat_history : option (list Turn);
  document_content : option string;
  google_sheet_credentials : option Json
}.

Definition empty_session : SessionState :=
  {| gemini_api_key := None; chat_history := None;
     document_content := None; google_sheet_credentials := None |}.

Definition set_gemini_api_key (v : string) (s : SessionState) : SessionState :=
  {| gemini_api_key := Some v; chat_history := chat_history s;
     document_content := document_content s;
     google_sheet_credentials := google_sheet_credentials s |}.

Definition set_chat_history (v : list Turn) (s : SessionState) : SessionState :=
  {| gemini_api_key := gemini_api_key s; chat_history := Some v;
     document_content := document_content s;
     google_sheet_credentials := google_sheet_credentials s |}.

Definition set_document_content (v : string) (s : SessionState) : SessionState :=
  {| gemini_api_key := gemini_api_key s; chat_history := chat_history s;
     document_content := Some v;
     google_sheet_credentials := google_sheet_credentials s |}.

Definition set_google_sheet_credentials (v : Json) (s : SessionState) : SessionState :=
  {| gemini_api_key := gemini_api_key s; chat_history := chat_history s;
     document_content := document_content s;
     google_sheet_credentials := Some v |}.

(** Lines 38-45: [if key not in st.session_state: st.session_state[key] = default]. *)
Definition with_defaults (s : SessionState) : SessionState :=
  {| gemini_api_key :=
       match gemini_api_key s with Some v => Some v | None => Some "" end;
     chat_history :=
       match chat_history s with Some v => Some v | None => Some [] end;
     document_content :=
       match document_content s with Some v => Some v | None => Some "" end;
     google_sheet_credentials :=
       match google_sheet_credentials s with Some v => Some v | None => Some JNull end |}.

(** What the widgets return during one run of the script.  A widget that
    the run does not reach is simply not read. *)
Record Interaction : Type := {
  in_gemini_api_key : string;                   (* line 48 *)
  in_credentials_file : option UploadedFile;    (* line 58 *)
  in_google_sheet_name : string;                (* line 65 *)
  in_analysis_worksheet_name : string;          (* line 66 *)
  in_questions_worksheet_name : string;         (* line 67 *)
  in_uploaded_file : option UploadedFile;       (* line 70 *)
  in_propose_clicked : bool;                    (* line 89 *)
  in_quiz_clicked : bool;                       (* line 101 *)
  in_user_question : string                     (* line 112 *)
}.

(** ** The error monad of pure library calls *)

Definition rbind {A B : Type} (r : result A) (k : A -> result B) : result B :=
  match r with
  | Ok a => k a
  | Raise e => Raise e
  end.

(** [for x in xs: acc = step(acc, x)], stopping at the first exception. *)
Fixpoint rfold {A B : Type} (step : A -> B -> result A) (xs : list B) (acc : A)
  : result A :=
  match xs with
  | [] => Ok acc
  | x :: xs' => rbind (step acc x) (rfold step xs')
  end.

(** [xs[i]]. *)
Definition index {A : Type} (xs : list A) (i : nat) : result A :=
  match nth_error xs i with
  | Some x => Ok x
  | None => Raise (Exception "list index out of range")
  end.

Section Program.

Variable E : Env.

(** Lines 12-23. *)
Definition get_file_content (uploaded_file : UploadedFile) : result string :=
  let file_type := type uploaded_file in
  if str_in "text" file_type || str_in "markdown" file_type then
    decode_utf8 E (getvalue uploaded_file)
  else if str_in "pdf" file_type then
    rbind (PdfReader E (getvalue uploaded_file)) (fun pages =>
    rfold (fun text_ page_num =>
             rbind (index pages page_num) (fun page =>
             rbind (extract_text E page) (fun t => Ok (text_ ++ t))))
          (seq 0 (length pages)) "")
  else
    Ok "Unsupported file type.".

(** ** The handler monad: world, session state, exceptions, event log *)

Record State : Type := {
  world : World E;
  session : SessionState
}.

Definition M (A : Type) : Type := State -> result A * State * list event.

Definition ret {A : Type} (a : A) : M A := fun st => (Ok a, st, []).

Definition raise {A : Type} (e : Exn) : M A := fun st => (Raise e, st, []).

Definition bind {A B : Type} (m : M A) (k : A -> M B) : M B :=
  fun st =>
    let '(r, st1, evs1) := m st in
    match r with
    | Ok a => let '(r2, st2, evs2) := k a st1 in (r2, st2, (evs1 ++ evs2)%list)
    | Raise e => (Raise e, st1, evs1)
    end.

(** [try: body except Exception as e: handler(e)].  What the body did to
    the world and to the session before it raised stays done. *)
Definition try_except {A : Type} (body : M A) (handler : Exn -> M A) : M A :=
  fun st =>
    let '(r, st1, evs1) := body st in
    match r with
    | Ok a => (Ok a, st1, evs1)
    | Raise e => let '(r2, st2, evs2) := handler e st1 in (r2, st2, (evs1 ++ evs2)%list)
    end.

Definition lift {A : Type} (r : result A) : M A := fun st => (r, st, []).

Definition show (u : ui) : M unit := fun st => (Ok tt, st, [Shown u]).

(** A library call that talks to the outside. *)
Definition ext {A : Type} (c : call) (describe : A -> reply)
    (f : World E -> result A * World E) : M A :=
  fun st =>
    let '(r, w) := f (world st) in
    (r, {| world := w; session := session st |},
     [Called c match r with Ok a => describe a | Raise e => Raised e end]).

Definition modify_session (f : SessionState -> SessionState) : M unit :=
  fun st => (Ok tt, {| world := world st; session := f (session st) |}, []).

(** [st.session_state[key]]: [KeyError] when the key is absent. *)
Definition session_get {A : Type} (field : SessionState -> option A) (key : string)
  : M A :=
  fun st =>
    match field (session st) with
    | Some v => (Ok v, st, [])
    | None => (Raise (Exception ("'" ++ key ++ "'")), st, [])
    end.

End Program.

Arguments ret {E A} a.
Arguments raise {E A} e.
Arguments bind {E A B} m k.
Arguments try_except {E A} body handler.
Arguments lift {E A} r.
Arguments show {E} u.
Arguments ext {E A} c describe f.
Arguments modify_session {E} f.
Arguments session_get {E A} field key.
Arguments world {E} s.
Arguments session {E} s.

Declare Scope handler_scope.
Delimit Scope handler_scope with handler.
Notation "x <- m ;; k" := (bind m (fun x => k))
  (at level 61, m at next level, right associativity) : handler_scope.
Notation "m ;; k" := (bind m (fun _ => k))
  (at level 61, right associativity) : handler_scope.
Local Open Scope handler_scope.

Section Handler.

Variable E : Env.

(** [x.name] where [x] may be [None]. *)
Definition attr_name (f : option UploadedFile) : M E string :=
  match f with
  | Some u => ret (name u)
  | None => raise (Exception "'NoneType' object has no attribute 'name'")
  end.

(** Lines 8-10. *)
Definition get_gemini_model (api_key : string) : M E (Model E) :=
  ext (CConfigure api_key) (fun _ => Returned) (genai_configure E api_key) ;;
  ext (CGenerativeModel "gemini-pro") (fun _ => Returned)
      (GenerativeModel E "gemini-pro").

(** Lines 25-33. *)
Definition save_to_google_sheet (data : list string)
    (sheet_name worksheet_name : string) (credentials_json : Json) : M E unit :=
  try_except
    (gc <- ext (CServiceAccount credentials_json) (fun _ => Returned)
               (service_account_from_dict E credentials_json) ;;
     sh <- ext (COpen sheet_name) (fun _ => Returned) (gc_open E gc sheet_name) ;;
     worksheet <- ext (CWorksheet worksheet_name) (fun _ => Returned)
                      (sh_worksheet E sh worksheet_name) ;;
     ext (CAppendRow data) (fun _ => Returned) (append_row E worksheet data) ;;
     show (UiSuccess (saved_text sheet_name worksheet_name)))
    (fun e => show (UiError (error_text "Error saving to Google Sheet: " e))).

(** [model.generate_content(prompt)]. *)
Definition generate (model : Model E) (prompt : string) : M E Response :=
  ext (CGenerateContent prompt) (fun r => Responded (text r))
      (generate_content E model prompt).

(** Lines 59-63. *)
Definition load_credentials (inp : Interaction) : M E unit :=
  match in_credentials_file inp with
  | Some credentials_file =>
      creds <- lift (json_load E (getvalue credentials_file)) ;;
      modify_session (set_google_sheet_credentials creds) ;;
      show (UiSidebarSuccess "Google Sheet credentials loaded!")
  | None =>
      show (UiSidebarInfo "Upload a service account key JSON for Google Sheet integration. Instructions: https://docs.gspread.org/en/latest/oauth2setup.html#service-account")
  end.

(** Lines 72-84. *)
Definition process_upload (inp : Interaction) : M E unit :=
  match in_uploaded_file inp with
  | Some uploaded_file =>
      doc0 <- session_get document_content "document_content" ;;
      if String.eqb doc0 "" then
        content <- lift (get_file_content E uploaded_file) ;;
        modify_session (set_document_content content) ;;
        doc <- session_get document_content "document_content" ;;
        if negb (String.eqb doc "Unsupported file type.") then
          try_except
            (key <- session_get gemini_api_key "gemini_api_key" ;;
             model <- get_gemini_model key ;;
             doc' <- session_get document_content "document_content" ;;
             response <- generate model (summarize_prompt doc') ;;
             show (UiSubheader "Document Summary:") ;;
             response_text <- lift (text response) ;;
             show (UiWrite response_text))
            (fun e => show (UiError (error_text "Error summarizing document: " e)))
        else
          doc' <- session_get document_content "document_content" ;;
          show (UiError doc')
      else ret tt
  | None => ret tt
  end.

(** Lines 89-99. *)
Definition propose_analysis (inp : Interaction) : M E unit :=
  if in_propose_clicked inp then
    try_except
      (key <- session_get gemini_api_key "gemini_api_key" ;;
       model <- get_gemini_model key ;;
       doc <- session_get document_content "document_content" ;;
       response <- generate model (analysis_prompt doc) ;;
       show (UiSubheader "Statistical Analysis Proposals:") ;;
       response_text <- lift (text response) ;;
       show (UiWrite response_text) ;;
       creds <- session_get google_sheet_credentials "google_sheet_credentials" ;;
       if truthy creds && nonempty (in_google_sheet_name inp)
          && nonempty (in_analysis_worksheet_name inp) then
         file_name <- attr_name (in_uploaded_file inp) ;;
         response_text' <- lift (text response) ;;
         creds' <- session_get google_sheet_credentials "google_sheet_credentials" ;;
         save_to_google_sheet [file_name; "Analysis Proposal"; response_text']
           (in_google_sheet_name inp) (in_analysis_worksheet_name inp) creds'
       else ret tt)
      (fun e => show (UiError (error_text
                                 "Error generating statistical analysis proposals: " e)))
  else ret tt.

(** Lines 101-109. *)
Definition generate_quiz (inp : Interaction) : M E unit :=
  if in_quiz_clicked inp then
    try_except
      (key <- session_get gemini_api_key "gemini_api_key" ;;
       model <- get_gemini_model key ;;
       doc <- session_get document_content "document_content" ;;
       response <- generate model (quiz_prompt doc) ;;
       show (UiSubheader "Quiz:") ;;
       response_text <- lift (text response) ;;
       show (UiWrite response_text))
      (fun e => show (UiError (error_text "Error generating quiz: " e)))
  else ret tt.

(** [list.append(x)] on [st.session_state["chat_history"]]. *)
Definition chat_history_append (t : Turn) : M E unit :=
  h <- session_get chat_history "chat_history" ;;
  modify_session (set_chat_history (h ++ [t])%list).

(** Lines 127-129. *)
Fixpoint show_messages (messages : list Turn) : M E unit :=
  match messages with
  | [] => ret tt
  | message :: rest =>
      first_part <- lift (index (parts message) 0) ;;
      show (UiChatMessage (role message) first_part) ;;
      show_messages rest
  end.

(** Lines 111-129. *)
Definition chat (inp : Interaction) : M E unit :=
  show (UiSubheader "Ask a question about the document or statistical analysis:") ;;
  let user_question := in_user_question inp in
  if nonempty user_question then
    key <- session_get gemini_api_key "gemini_api_key" ;;
    model <- get_gemini_model key ;;
    h <- session_get chat_history "chat_history" ;;
    chat_ <- ext (CStartChat h) (fun _ => Returned) (start_chat E model h) ;;
    try_except
      (doc <- session_get document_content "document_content" ;;
       response <- ext (CSendMessage (chat_prompt doc user_question))
                       (fun r => Responded (text r))
                       (send_message E chat_ (chat_prompt doc user_question)) ;;
       chat_history_append (user_turn user_question) ;;
       response_text <- lift (text response) ;;
       chat_history_append (model_turn response_text) ;;
       creds <- session_get google_sheet_credentials "google_sheet_credentials" ;;
       if truthy creds && nonempty (in_google_sheet_name inp)
          && nonempty (in_questions_worksheet_name inp) then
         file_name <- attr_name (in_uploaded_file inp) ;;
         response_text' <- lift (text response) ;;
         creds' <- session_get google_sheet_credentials "google_sheet_credentials" ;;
         save_to_google_sheet [file_name; user_question; response_text']
           (in_google_sheet_name inp) (in_questions_worksheet_name inp) creds'
       else ret tt)
      (fun e => show (UiError (error_text "Error communicating with Gemini: " e))) ;;
    h' <- session_get chat_history "chat_history" ;;
    show_messages h'
  else ret tt.

(** Lines 86-129. *)
Definition interface (inp : Interaction) : M E unit :=
  doc <- session_get document_content "document_content" ;;
  if nonempty doc then
    propose_analysis inp ;;
    generate_quiz inp ;;
    chat inp
  else ret tt.

(** Lines 35-129. *)
Definition main (inp : Interaction) : M E unit :=
  show (UiTitle "Chatbot for Document Q&A and Statistical Analysis") ;;
  modify_session with_defaults ;;
  let gemini_api_key_ := in_gemini_api_key inp in
  if nonempty gemini_api_key_ then
    modify_session (set_gemini_api_key gemini_api_key_) ;;
    show (UiSuccess "Gemini API Key set!") ;;
    show (UiSidebarSubheader "Google Sheet Integration") ;;
    load_credentials inp ;;
    process_upload inp ;;
    interface inp
  else
    show (UiWarning "Please enter your Gemini API Key to proceed.") ;;
    ret tt.

(** A browser session: the script is run once per interaction; the session
    state and the world carry over, whether or not a run ended with an
    uncaught exception. *)
Fixpoint run_session (inps : list Interaction) (st : State E) : State E * list event :=
  match inps with
  | [] => (st, [])
  | inp :: rest =>
      let '(_, st1, evs1) := main inp st in
      let '(st2, evs2) := run_session rest st1 in
      (st2, (evs1 ++ evs2)%list)
  end.

End Handler.

Arguments attr_name {E} f.
Arguments show_messages {E} messages.

(** ** Reading of the PDF branch used to state its result *)

(** The extracted text of every page, in page order; the first page that
    fails decides the exception. *)
Fixpoint extract_all (E : Env) (pages : list (PdfPage E)) : result (list string) :=
  match pages with
  | [] => Ok []
  | page :: rest =>
      rbind (extract_text E page) (fun t =>
      rbind (extract_all E rest) (fun ts => Ok (t :: ts)))
  end.

Definition join (texts : list string) : string := fold_right append "" texts.

(** ** Vocabulary for the event log *)

(** The external operations, with the three [generate_content] requests
    told apart by the fixed text their prompt starts with. *)
Inductive op : Type :=
| OpConfigure | OpModel | OpSummarize | OpAnalysis | OpQuiz | OpGenerate
| OpStartChat | OpSend | OpServiceAccount | OpOpen | OpWorksheet | OpAppendRow.

Definition classify_prompt (prompt : string) : op :=
  if String.prefix "Summarize the following document:" prompt then OpSummarize
  else if String.prefix
            "Based on the following document content, propose relevant statistical analysis methods and why they are suitable:"
            prompt then OpAnalysis
  else if String.prefix
            "Generate a multiple-choice quiz with answers based on the following document content:"
            prompt then OpQuiz
  else OpGenerate.

Definition op_of (c : call) : op :=
  match c with
  | CConfigure _ => OpConfigure
  | CGenerativeModel _ => OpModel
  | CGenerateContent prompt => classify_prompt prompt
  | CStartChat _ => OpStartChat
  | CSendMessage _ => OpSend
  | CServiceAccount _ => OpServiceAccount
  | COpen _ => OpOpen
  | CWorksheet _ => OpWorksheet
  | CAppendRow _ => OpAppendRow
  end.

Definition op_code (o : op) : nat :=
  match o with
  | OpConfigure => 0 | OpModel => 1 | OpSummarize => 2 | OpAnalysis => 3
  | OpQuiz => 4 | OpGenerate => 5 | OpStartChat => 6 | OpSend => 7
  | OpServiceAccount => 8 | OpOpen => 9 | OpWorksheet => 10 | OpAppendRow => 11
  end.

Definition is_op (o : op) (ev : event) : bool :=
  match ev with
  | Called c _ => Nat.eqb (op_code (op_of c)) (op_code o)
  | Shown _ => false
  end.

(** How many times operation [o] was invoked. *)
Definition count (o : op) (evs : list event) : nat := length (filter (is_op o) evs).

(** The calls of a log, in order, without their outcome. *)
Fixpoint calls_of (evs : list event) : list call :=
  match evs with
  | [] => []
  | Called c _ :: rest => c :: calls_of rest
  | Shown _ :: rest => calls_of rest
  end.

(** Every call that raised is directly followed by an error message that
    ends with the text of the exception: the handler displayed it and
    made no call of its own. *)
Inductive caught : list event -> Prop :=
| caught_nil : caught []
| caught_raised c e what rest :
    caught rest ->
    caught (Called c (Raised e) :: Shown (UiError (what ++ str_of_exn e)) :: rest)
| caught_returned c rest :
    caught rest -> caught (Called c Returned :: rest)
| caught_responded c t rest :
    caught rest -> caught (Called c (Responded t) :: rest)
| caught_shown u rest :
    caught rest -> caught (Shown u :: rest).

(** As [caught], except that the log may end with a call whose exception
    nobody handled. *)
Definition caught_but_last (evs : list event) : Prop :=
  caught evs \/
  exists before c e, evs = (before ++ [Called c (Raised e)])%list /\ caught before.

Definition initialised (s : SessionState) : Prop :=
  gemini_api_key s <> None /\ chat_history s <> None /\
  document_content s <> None /\ google_sheet_credentials s <> None.

(** Every stored turn has a first part (line 129 reads [parts][0]). *)
Definition turns_ok (s : SessionState) : Prop :=
  forall h, chat_history s = Some h -> Forall (fun t => parts t <> []) h.

Definition history_of (s : SessionState) : list Turn :=
  match chat_history s with
  | Some h => h
  | None => []
  end.

(** What reading [text] gives for the responses of the [send_message]
    calls that returned. *)
Fixpoint answers (evs : list event) : list (result string) :=
  match evs with
  | [] => []
  | Called (CSendMessage _) (Responded t) :: rest => t :: answers rest
  | _ :: rest => answers rest
  end.

(** The turns appended for the answers received to [question]: line 120
    appends the user turn, line 121 reads the text and appends the model
    turn. *)
Definition exchanges (question : string) (received : list (result string))
  : list Turn :=
  flat_map (fun t => match t with
                     | Ok s => [user_turn question; model_turn s]
                     | Raise _ => [user_turn question]
                     end) received.

(** How often each part of [main] may invoke an operation. *)
Definition upload_budget (o : op) : nat :=
  match o with
  | OpConfigure | OpModel | OpSummarize => 1
  | _ => 0
  end.

Definition propose_budget (inp : Interaction) (o : op) : nat :=
  if in_propose_clicked inp then
    match o with
    | OpConfigure | OpModel | OpAnalysis
    | OpServiceAccount | OpOpen | OpWorksheet | OpAppendRow => 1
    | _ => 0
    end
  else 0.

Definition quiz_budget (inp : Interaction) (o : op) : nat :=
  if in_quiz_clicked inp then
    match o with
    | OpConfigure | OpModel | OpQuiz => 1
    | _ => 0
    end
  else 0.

Definition chat_budget (inp : Interaction) (o : op) : nat :=
  if nonempty (in_user_question inp) then
    match o with
    | OpConfigure | OpModel | OpStartChat | OpSend
    | OpServiceAccount | OpOpen | OpWorksheet | OpAppendRow => 1
    | _ => 0
    end
  else 0.

Definition budget (inp : Interaction) (o : op) : nat :=
  upload_budget o + propose_budget inp o + quiz_budget inp o + chat_budget inp o.

(** The state in which line 56 is reached, and what lines 36-57 displayed. *)
Definition keyed (E : Env) (inp : Interaction) (st : State E) : State E :=
  {| world := world st;
     session := set_gemini_api_key (in_gemini_api_key inp) (with_defaults (session st)) |}.

Definition header : list event :=
  [Shown (UiTitle "Chatbot for Document Q&A and Statistical Analysis");
   Shown (UiSuccess "Gemini API Key set!");
   Shown (UiSidebarSubheader "Google Sheet Integration")].

(** The ways lines 56-129 can run, as a sequence of runs of the parts. *)
Inductive ran (E : Env) (inp : Interaction) (st0 : State E)
  : result unit -> State E -> list event -> Prop :=
| ran_credentials_raise e st1 ev1 :
    load_credentials E inp st0 = (Raise e, st1, ev1) ->
    ran E inp st0 (Raise e) st1 ev1
| ran_upload_raise st1 ev1 e st2 ev2 :
    load_credentials E inp st0 = (Ok tt, st1, ev1) ->
    process_upload E inp st1 = (Raise e, st2, ev2) ->
    ran E inp st0 (Raise e) st2 (ev1 ++ ev2)%list
| ran_no_document st1 ev1 st2 ev2 :
    load_credentials E inp st0 = (Ok tt, st1, ev1) ->
    process_upload E inp st1 = (Ok tt, st2, ev2) ->
    document_content (session st2) = Some "" ->
    ran E inp st0 (Ok tt) st2 (ev1 ++ ev2)%list
| ran_interface st1 ev1 st2 ev2 d st3 ev3 st4 ev4 r st5 ev5 :
    load_credentials E inp st0 = (Ok tt, st1, ev1) ->
    process_upload E inp st1 = (Ok tt, st2, ev2) ->
    document_content (session st2) = Some d ->
    nonempty d = true ->
    propose_analysis E inp st2 = (Ok tt, st3, ev3) ->
    generate_quiz E inp st3 = (Ok tt, st4, ev4) ->
    chat E inp st4 = (r, st5, ev5) ->
    ran E inp st0 r st5 (ev1 ++ ev2 ++ ev3 ++ ev4 ++ ev5)%list.

(** Model construction and chat-session creation never raise in [E]. *)
Definition setup_total (E : Env) : Prop :=
  (forall k w, fst (genai_configure E k w) = Ok tt) /\
  (forall n w, exists m, fst (GenerativeModel E n w) = Ok m) /\
  (forall m h w, exists c, fst (start_chat E m h w) = Ok c).

(** An event of the analysis, quiz and chat part when the stored document
    is [doc] and the question box holds [question]: requests are built
    from [doc], and no summary is displayed. *)
Definition about (doc question : string) (ev : event) : Prop :=
  match ev with
  | Called (CGenerateContent p) _ => p = analysis_prompt doc \/ p = quiz_prompt doc
  | Called (CSendMessage m) _ => m = chat_prompt doc question
  | Shown (UiSubheader s) => s <> "Document Summary:"
  | _ => True
  end.

Definition chat_box : event :=
  Shown (UiSubheader "Ask a question about the document or statistical analysis:").





Definition unsupported : string := "Unsupported file type.".

(** What lines 78-82 log once the model is built: the request with its
    outcome, then the heading and the summary, or the handler's message
    (after the heading, when it is reading the text that raises). *)
Definition summary_events (content : string) (res : result Response) : list event :=
  let request :=
    CGenerateContent ("Summarize the following document:" ++ nl ++ nl ++ content) in
  match res with
  | Ok response =>
      match text response with
      | Ok t =>
          [Called request (Responded (Ok t));
           Shown (UiSubheader "Document Summary:");
           Shown (UiWrite t)]
      | Raise e =>
          [Called request (Responded (Raise e));
           Shown (UiSubheader "Document Summary:");
           Shown (UiError ("Error summarizing document: " ++ str_of_exn e))]
      end
  | Raise e =>
      [Called request (Raised e);
       Shown (UiError ("Error summarizing document: " ++ str_of_exn e))]
  end.

(** ** Further vocabulary for the event log *)

(** How the SDK is set up: with which key, which model, which history. *)
Definition set_up (key : string) (history : list Turn) (ev : event) : Prop :=
  match ev with
  | Called (CConfigure k) _ => k = key
  | Called (CGenerativeModel n) _ => n = "gemini-pro"
  | Called (CStartChat h) _ => h = history
  | _ => True
  end.

(** A request is one of the four f-strings over [doc] and [question]. *)
Definition built_from (doc question : string) (ev : event) : Prop :=
  match ev with
  | Called (CGenerateContent p) _ =>
      p = summarize_prompt doc \/ p = analysis_prompt doc \/ p = quiz_prompt doc
  | Called (CSendMessage m) _ => m = chat_prompt doc question
  | _ => True
  end.

(** A spreadsheet step addresses the sheet and a worksheet named in the
    sidebar, with the credentials [creds]. *)
Definition logged_to (inp : Interaction) (creds : Json) (ev : event) : Prop :=
  match ev with
  | Called (CServiceAccount c) _ => c = creds
  | Called (COpen n) _ => n = in_google_sheet_name inp
  | Called (CWorksheet n) _ =>
      n = in_analysis_worksheet_name inp \/ n = in_questions_worksheet_name inp
  | _ => True
  end.

(** The headings of lines 79, 94 and 106. *)
Definition heading_of (o : op) : string :=
  match o with
  | OpSummarize => "Document Summary:"
  | OpAnalysis => "Statistical Analysis Proposals:"
  | OpQuiz => "Quiz:"
  | _ => ""
  end.

(** The prefixes of the handlers' messages of lines 82, 99 and 109. *)
Definition error_of (o : op) : string :=
  match o with
  | OpSummarize => "Error summarizing document: "
  | OpAnalysis => "Error generating statistical analysis proposals: "
  | OpQuiz => "Error generating quiz: "
  | _ => ""
  end.

Definition is_response (c : call) (r : reply) : bool :=
  match c, r with
  | CGenerateContent _, Responded _ => true
  | _, _ => false
  end.

(** Every [generate_content] call that returned is directly followed by
    the heading of its kind, and then by the response text or, when
    reading the text raised, by the message of the handler of its kind
    with the text of that exception. *)
Inductive answered : list event -> Prop :=
| answered_nil : answered []
| answered_response p t h rest :
    heading_of (classify_prompt p) = h ->
    answered rest ->
    answered (Called (CGenerateContent p) (Responded (Ok t))
              :: Shown (UiSubheader h) :: Shown (UiWrite t) :: rest)
| answered_unreadable p e h what rest :
    heading_of (classify_prompt p) = h ->
    error_of (classify_prompt p) = what ->
    answered rest ->
    answered (Called (CGenerateContent p) (Responded (Raise e))
              :: Shown (UiSubheader h)
              :: Shown (UiError (what ++ str_of_exn e)) :: rest)
| answered_called c r rest :
    is_response c r = false -> answered rest -> answered (Called c r :: rest)
| answered_shown u rest :
    answered rest -> answered (Shown u :: rest).

(** What lines 128-129 show for one turn. *)
Definition shown_turn (t : Turn) : event :=
  Shown (UiChatMessage (role t) (hd "" (parts t))).

(** A logged row names the selected file and carries either the analysis
    proposal or the question with its answer, as received in [evs]. *)
Definition row_reports (inp : Interaction) (doc : string) (evs : list event)
    (row : list string) : Prop :=
  exists f t,
    in_uploaded_file inp = Some f /\
    ((row = [name f; "Analysis Proposal"; t] /\
      In (Called (CGenerateContent (analysis_prompt doc)) (Responded (Ok t))) evs) \/
     (row = [name f; in_user_question inp; t] /\
      In (Called (CSendMessage (chat_prompt doc (in_user_question inp)))
            (Responded (Ok t))) evs)).

(** What the credentials are after lines 59-63. *)
Definition credentials_after (E : Env) (inp : Interaction) (old : option Json)
  : option Json :=
  match in_credentials_file inp with
  | Some f =>
      match json_load E (getvalue f) with
      | Ok j => Some j
      | Raise _ => old
      end
  | None => old
  end.

(** ** A small concrete environment

    One byte per character, one PDF page per byte, a world that counts the
    calls made so far, and switches that make a library call raise. *)

Record Faults : Type := {
  bad_json : bool;
  bad_model : bool;
  bad_generate : bool;
  bad_send : bool;
  bad_sheet : bool;
  bad_text : bool;
  model_down_at : option nat
}.

Definition no_faults : Faults :=
  {| bad_json := false; bad_model := false; bad_generate := false;
     bad_send := false; bad_sheet := false; bad_text := false;
     model_down_at := None |}.

(** A response of the mock: its text, or a response without a valid
    part. *)
Definition respond (f : Faults) (t : string) : Response :=
  {| text := if bad_text f then Raise (Exception "no valid part") else Ok t |}.

Definition answer {A : Type} (fails : bool) (what : string) (a : A) (w : nat)
  : result A * nat :=
  (if fails then Raise (Exception (what ++ " failed")) else Ok a, S w).

Definition mock (f : Faults) : Env :=
  {| World := nat;
     Model := unit;
     ChatSession := unit;
     Client := unit;
     Spreadsheet := unit;
     Worksheet := unit;
     PdfPage := byte;
     decode_utf8 := fun b => Ok (string_of_list_byte b);
     PdfReader := fun b => Ok b;
     extract_text := fun p => Ok (string_of_list_byte [p]);
     json_load := fun b =>
       if bad_json f then Raise (Exception "Expecting value")
       else Ok (JDict [("type", JStr (string_of_list_byte b))]);
     genai_configure := fun _ => answer false "configure" tt;
     GenerativeModel := fun _ w =>
       answer (bad_model f
               || match model_down_at f with
                  | Some n => Nat.eqb w n
                  | None => false
                  end) "model" tt w;
     generate_content := fun _ p => answer (bad_generate f) "generate" (respond f "reply");
     start_chat := fun _ _ => answer false "start_chat" tt;
     send_message := fun _ p => answer (bad_send f) "send" (respond f "answer");
     service_account_from_dict := fun _ => answer false "auth" tt;
     gc_open := fun _ _ => answer (bad_sheet f) "open" tt;
     sh_worksheet := fun _ _ => answer false "worksheet" tt;
     append_row := fun _ _ => answer false "append" tt |}.

Definition fresh (f : Faults) : State (mock f) :=
  Build_State (mock f) 0 empty_session.

Definition file (file_name mime content : string) : UploadedFile :=
  {| name := file_name; type := mime; getvalue := list_byte_of_string content |}.

Definition notes : UploadedFile := file "notes.md" "text/markdown" "hi".

Definition picture : UploadedFile := file "pic.png" "image/png" "abc".

Definition blank : UploadedFile := file "empty.txt" "text/plain" "".

Definition service_key : UploadedFile := file "key.json" "application/json" "k".

(** A run with the key typed in, the service-account key uploaded and the
    sheet named "Log". *)
Definition visit (document : option UploadedFile) (propose quiz : bool)
    (question : string) : Interaction :=
  {| in_gemini_api_key := "secret";
     in_credentials_file := Some service_key;
     in_google_sheet_name := "Log";
     in_analysis_worksheet_name := "Analysis";
     in_questions_worksheet_name := "Questions";
     in_uploaded_file := document;
     in_propose_clicked := propose;
     in_quiz_clicked := quiz;
     in_user_question := question |}.

(** The same widget values with the key field cleared. *)
Definition without_key (i : Interaction) : Interaction :=
  {| in_gemini_api_key := "";
     in_credentials_file := in_credentials_file i;
     in_google_sheet_name := in_google_sheet_name i;
     in_analysis_worksheet_name := in_analysis_worksheet_name i;
     in_questions_worksheet_name := in_questions_worksheet_name i;
     in_uploaded_file := in_uploaded_file i;
     in_propose_clicked := in_propose_clicked i;
     in_quiz_clicked := in_quiz_clicked i;
     in_user_question := in_user_question i |}.

(** The session after [notes] has been uploaded and summarised. *)
Definition loaded (f : Faults) : State (mock f) :=
  fst (run_session (mock f) [visit (Some notes) false false ""] (fresh f)).

Definition only_bad_json : Faults :=
  {| bad_json := true; bad_model := false; bad_generate := false;
     bad_send := false; bad_sheet := false; bad_text := false;
     model_down_at := None |}.

Definition only_bad_sheet : Faults :=
  {| bad_json := false; bad_model := false; bad_generate := false;
     bad_send := false; bad_sheet := true; bad_text := false;
     model_down_at := None |}.

Definition only_bad_model : Faults :=
  {| bad_json := false; bad_model := true; bad_generate := false;
     bad_send := false; bad_sheet := false; bad_text := false;
     model_down_at := None |}.


Definition only_bad_text : Faults :=
  {| bad_json := false; bad_model := false; bad_generate := false;
     bad_send := false; bad_sheet := false; bad_text := true;
     model_down_at := None |}.

(** * Properties *)

(** ** File-content extraction *)

Section FileContent.

Variable E : Env.

Lemma index_app_here {A : Type} (before : list A) (x : A) (after : list A) :
  index (before ++ x :: after)%list (length before) = Ok x.
Proof.
  unfold index.
  rewrite nth_error_app2 by lia.
  now rewrite Nat.sub_diag.
Qed.

Lemma append_assoc (a b c : string) : (a ++ b) ++ c = a ++ (b ++ c).
Proof. induction a as [|ch a IH]; simpl; [reflexivity | now rewrite IH]. Qed.

(** The page loop, started after [before] with [acc] accumulated, adds the
    text of the remaining pages in order. *)
Lemma page_loop (after before : list (PdfPage E)) (acc : string) :
  rfold (fun text_ page_num =>
           rbind (index (before ++ after)%list page_num) (fun page =>
           rbind (extract_text E page) (fun t => Ok (text_ ++ t))))
        (seq (length before) (length after)) acc
  = rbind (extract_all E after) (fun ts => Ok (acc ++ join ts)).
Proof.
  revert before acc.
  induction after as [|page after IH]; intros before acc; simpl.
  - f_equal. induction acc as [|ch acc IHacc]; simpl; [reflexivity | now f_equal].
  - rewrite index_app_here. simpl.
    destruct (extract_text E page) as [t|e]; simpl; [|reflexivity].
    specialize (IH (before ++ [page])%list (acc ++ t)).
    rewrite <- app_assoc in IH. simpl in IH.
    rewrite length_app in IH. simpl in IH.
    rewrite Nat.add_1_r in IH. rewrite IH.
    destruct (extract_all E after) as [ts|e]; simpl; [|reflexivity].
    now rewrite append_assoc.
Qed.

(** C1.  [get_file_content] branches on the MIME type, in this order: a
    type containing "text" or "markdown" gives the bytes decoded as UTF-8;
    otherwise a type containing "pdf" gives the texts of all pages of the
    PDF, joined in page order; otherwise the result is the string
    "Unsupported file type.".  When decoding, opening the PDF or
    extracting a page raises, that exception is the result. *)
Theorem get_file_content_cases (f : UploadedFile) :
  (str_in "text" (type f) || str_in "markdown" (type f) = true ->
   get_file_content E f = decode_utf8 E (getvalue f)) /\
  (str_in "text" (type f) || str_in "markdown" (type f) = false ->
   str_in "pdf" (type f) = true ->
   get_file_content E f =
   rbind (PdfReader E (getvalue f)) (fun pages =>
   rbind (extract_all E pages) (fun texts => Ok (join texts)))) /\
  (str_in "text" (type f) || str_in "markdown" (type f) = false ->
   str_in "pdf" (type f) = false ->
   get_file_content E f = Ok "Unsupported file type.").
Proof.
  unfold get_file_content.
  repeat split.
  - intros ->. reflexivity.
  - intros -> ->.
    destruct (PdfReader E (getvalue f)) as [pages|e]; simpl; [|reflexivity].
    exact (page_loop pages [] "").
  - intros -> ->. reflexivity.
Qed.

End FileContent.

Lemma get_file_content_cases_witness :
  get_file_content (mock no_faults) (file "notes.md" "text/markdown" "hi") = Ok "hi" /\
  get_file_content (mock no_faults) (file "paper.pdf" "application/pdf" "abc") = Ok "abc" /\
  get_file_content (mock no_faults) (file "pic.png" "image/png" "abc")
  = Ok "Unsupported file type.".
Proof.
  pose proof (get_file_content_cases (mock no_faults)
                (file "notes.md" "text/markdown" "hi")) as [Htext _].
  pose proof (get_file_content_cases (mock no_faults)
                (file "paper.pdf" "application/pdf" "abc")) as [_ [Hpdf _]].
  pose proof (get_file_content_cases (mock no_faults)
                (file "pic.png" "image/png" "abc")) as [_ [_ Hother]].
  split; [|split].
  - rewrite Htext; reflexivity.
  - rewrite Hpdf; reflexivity.
  - rewrite Hother; reflexivity.
Defined.

(** ** Running the handler monad *)

Ltac unfold_handler :=
  unfold generate, get_gemini_model, chat_history_append, attr_name in *;
  unfold bind, try_except, ext, show, lift, ret, raise, modify_session,
    session_get in *.

(** Case analysis on the innermost scrutinee the goal is stuck on. *)
Ltac break_match :=
  match goal with
  | |- context [match ?x with _ => _ end] =>
      lazymatch x with
      | context [match _ with _ => _ end] => fail
      | _ => destruct x eqn:?
      end
  end.

Ltac run := repeat (simpl in *; break_match); simpl in *.

Arguments error_text : simpl never.
Arguments saved_text : simpl never.
Arguments summarize_prompt : simpl never.
Arguments analysis_prompt : simpl never.
Arguments quiz_prompt : simpl never.
Arguments chat_prompt : simpl never.
Arguments classify_prompt : simpl never.

(** ** Spreadsheet append *)

Section Sheet.

Variable E : Env.

(** C3.  [save_to_google_sheet] returns normally from every state and
    leaves the session state alone.  It builds the client from the
    credentials, opens the spreadsheet by name with that client, opens
    the worksheet of that spreadsheet and appends the row to that
    worksheet, each step in the world the step before left.  The first
    step that raises ends the sequence: the handler shows "Error saving
    to Google Sheet: " followed by the text of the exception, and the
    later steps are not made.  When all four return, the success message
    is shown. *)
Theorem save_to_google_sheet_contains_errors
    (data : list string) (sheet_name worksheet_name : string)
    (credentials_json : Json) (st : State E) :
  (exists st' evs,
     save_to_google_sheet E data sheet_name worksheet_name credentials_json st
     = (Ok tt, st', evs) /\ session st' = session st) /\
  (forall e w1,
     service_account_from_dict E credentials_json (world st) = (Raise e, w1) ->
     save_to_google_sheet E data sheet_name worksheet_name credentials_json st
     = (Ok tt, {| world := w1; session := session st |},
        [Called (CServiceAccount credentials_json) (Raised e);
         Shown (UiError ("Error saving to Google Sheet: " ++ str_of_exn e))])) /\
  (forall gc w1 e w2,
     service_account_from_dict E credentials_json (world st) = (Ok gc, w1) ->
     gc_open E gc sheet_name w1 = (Raise e, w2) ->
     save_to_google_sheet E data sheet_name worksheet_name credentials_json st
     = (Ok tt, {| world := w2; session := session st |},
        [Called (CServiceAccount credentials_json) Returned;
         Called (COpen sheet_name) (Raised e);
         Shown (UiError ("Error saving to Google Sheet: " ++ str_of_exn e))])) /\
  (forall gc w1 sh w2 e w3,
     service_account_from_dict E credentials_json (world st) = (Ok gc, w1) ->
     gc_open E gc sheet_name w1 = (Ok sh, w2) ->
     sh_worksheet E sh worksheet_name w2 = (Raise e, w3) ->
     save_to_google_sheet E data sheet_name worksheet_name credentials_json st
     = (Ok tt, {| world := w3; session := session st |},
        [Called (CServiceAccount credentials_json) Returned;
         Called (COpen sheet_name) Returned;
         Called (CWorksheet worksheet_name) (Raised e);
         Shown (UiError ("Error saving to Google Sheet: " ++ str_of_exn e))])) /\
  (forall gc w1 sh w2 wk w3 e w4,
     service_account_from_dict E credentials_json (world st) = (Ok gc, w1) ->
     gc_open E gc sheet_name w1 = (Ok sh, w2) ->
     sh_worksheet E sh worksheet_name w2 = (Ok wk, w3) ->
     append_row E wk data w3 = (Raise e, w4) ->
     save_to_google_sheet E data sheet_name worksheet_name credentials_json st
     = (Ok tt, {| world := w4; session := session st |},
        [Called (CServiceAccount credentials_json) Returned;
         Called (COpen sheet_name) Returned;
         Called (CWorksheet worksheet_name) Returned;
         Called (CAppendRow data) (Raised e);
         Shown (UiError ("Error saving to Google Sheet: " ++ str_of_exn e))])) /\
  (forall gc w1 sh w2 wk w3 u w4,
     service_account_from_dict E credentials_json (world st) = (Ok gc, w1) ->
     gc_open E gc sheet_name w1 = (Ok sh, w2) ->
     sh_worksheet E sh worksheet_name w2 = (Ok wk, w3) ->
     append_row E wk data w3 = (Ok u, w4) ->
     save_to_google_sheet E data sheet_name worksheet_name credentials_json st
     = (Ok tt, {| world := w4; session := session st |},
        [Called (CServiceAccount credentials_json) Returned;
         Called (COpen sheet_name) Returned;
         Called (CWorksheet worksheet_name) Returned;
         Called (CAppendRow data) Returned;
         Shown (UiSuccess ("Data saved to Google Sheet '" ++ sheet_name
                           ++ "' (worksheet '" ++ worksheet_name ++ "')"))])).
Proof.
  split.
  { unfold save_to_google_sheet. unfold_handler. run;
      (do 2 eexists; split; reflexivity). }
  unfold save_to_google_sheet, try_except, bind, ext, show.
  repeat split.
  - intros e w1 H1. rewrite H1. reflexivity.
  - intros gc w1 e w2 H1 H2. rewrite H1. simpl. rewrite H2. reflexivity.
  - intros gc w1 sh w2 e w3 H1 H2 H3.
    rewrite H1. simpl. rewrite H2. simpl. rewrite H3. reflexivity.
  - intros gc w1 sh w2 wk w3 e w4 H1 H2 H3 H4.
    rewrite H1. simpl. rewrite H2. simpl. rewrite H3. simpl. rewrite H4.
    reflexivity.
  - intros gc w1 sh w2 wk w3 u w4 H1 H2 H3 H4.
    rewrite H1. simpl. rewrite H2. simpl. rewrite H3. simpl. rewrite H4.
    reflexivity.
Qed.

End Sheet.

Lemma save_to_google_sheet_contains_errors_witness :
  save_to_google_sheet (mock only_bad_sheet) ["notes.md"; "why?"; "answer"]
    "Log" "Questions" (JStr "key") (fresh only_bad_sheet)
  = (Ok tt, Build_State (mock only_bad_sheet) 2 empty_session,
     [Called (CServiceAccount (JStr "key")) Returned;
      Called (COpen "Log") (Raised (Exception "open failed"));
      Shown (UiError "Error saving to Google Sheet: open failed")]).
Proof.
  destruct (save_to_google_sheet_contains_errors (mock only_bad_sheet)
              ["notes.md"; "why?"; "answer"] "Log" "Questions" (JStr "key")
              (fresh only_bad_sheet)) as (_ & _ & Hopen & _).
  exact (Hopen tt 1 (Exception "open failed") 2 eq_refl eq_refl).
Defined.

(** ** Facts about logs *)

Lemma count_app (o : op) (a b : list event) :
  count o (a ++ b)%list = count o a + count o b.
Proof. unfold count. now rewrite filter_app, length_app. Qed.

Lemma count_no_calls (o : op) (evs : list event) :
  calls_of evs = [] -> count o evs = 0.
Proof.
  unfold count.
  induction evs as [|[c r|u] evs IH]; simpl; intro H; [reflexivity|discriminate|auto].
Qed.

Lemma caught_no_calls (evs : list event) : calls_of evs = [] -> caught evs.
Proof.
  induction evs as [|[c r|u] evs IH]; simpl; intro H.
  - constructor.
  - discriminate.
  - constructor; auto.
Qed.

Lemma caught_app (a b : list event) : caught a -> caught b -> caught (a ++ b)%list.
Proof. induction 1; simpl; intros; try constructor; auto. Qed.

Lemma answers_app (a b : list event) :
  answers (a ++ b)%list = (answers a ++ answers b)%list.
Proof.
  induction a as [|[c r|u] a IH]; simpl; auto.
  destruct c; auto. destruct r; simpl; auto. now f_equal.
Qed.

Lemma answers_no_send (evs : list event) : count OpSend evs = 0 -> answers evs = [].
Proof.
  unfold count.
  induction evs as [|[c r|u] evs IH]; simpl; auto.
  destruct c; simpl; auto; try discriminate.
  destruct (classify_prompt prompt); simpl; auto; discriminate.
Qed.

Lemma prefix_append (s t : string) : String.prefix s (s ++ t) = true.
Proof.
  induction s as [|ch s IH]; simpl; [now destruct t|].
  destruct (ascii_dec ch ch); [exact IH|contradiction].
Qed.

Lemma classify_summarize (doc : string) :
  classify_prompt (summarize_prompt doc) = OpSummarize.
Proof.
  unfold classify_prompt, summarize_prompt, summarize_head.
  now rewrite prefix_append.
Qed.

Lemma classify_analysis (doc : string) :
  classify_prompt (analysis_prompt doc) = OpAnalysis.
Proof.
  unfold classify_prompt, analysis_prompt, analysis_head.
  rewrite prefix_append. reflexivity.
Qed.

Lemma classify_quiz (doc : string) :
  classify_prompt (quiz_prompt doc) = OpQuiz.
Proof.
  unfold classify_prompt, quiz_prompt, quiz_head.
  rewrite prefix_append. reflexivity.
Qed.

Lemma initialised_fields (s : SessionState) :
  initialised s ->
  exists k h d c,
    s = {| gemini_api_key := Some k; chat_history := Some h;
           document_content := Some d; google_sheet_credentials := Some c |}.
Proof.
  destruct s as [[k|] [h|] [d|] [c|]]; unfold initialised; simpl;
    intros (?&?&?&?); try congruence.
  now exists k, h, d, c.
Qed.

(** Replaces an initialised state by its fields. *)
Ltac open_state st Hinit :=
  let w := fresh "w" in
  let s := fresh "s" in
  destruct st as [w s]; simpl in Hinit;
  destruct (initialised_fields _ Hinit) as (?k & ?h & ?d & ?c & ->);
  clear Hinit.

Ltac count_leaf :=
  let o := fresh "o" in
  intro o; unfold count; simpl;
  rewrite ?classify_summarize, ?classify_analysis, ?classify_quiz;
  destruct o; simpl; lia.

Ltac caught_leaf := repeat (constructor; try discriminate).

Ltac about_leaf :=
  let doc := fresh "doc" in
  let q := fresh "q" in
  intros doc q [= <-]; repeat (constructor; simpl; auto; try discriminate).

(** Splits the summary of one execution path and closes each piece. *)
Ltac leaf :=
  repeat split;
  match goal with
  | |- caught _ => caught_leaf
  | |- forall o, count _ _ <= _ => count_leaf
  | |- _ \/ _ => first [left; reflexivity | right; eauto]
  | |- forall doc q, Forall _ _ => intros; repeat constructor; simpl; auto
  | |- forall doc q, _ = _ -> Forall _ _ => about_leaf
  | |- _ => first [reflexivity | discriminate]
  end.

(** ** The parts of [main], one at a time *)

Section Parts.

Variable E : Env.

Lemma propose_analysis_run (inp : Interaction) (st : State E) r st' evs :
  initialised (session st) ->
  propose_analysis E inp st = (r, st', evs) ->
  r = Ok tt /\ session st' = session st /\ caught evs /\
  (forall o, count o evs <= propose_budget inp o) /\
  (forall doc q, document_content (session st) = Some doc ->
                 Forall (about doc q) evs).
Proof.
  intros Hinit. open_state st Hinit.
  unfold propose_budget, propose_analysis, save_to_google_sheet. unfold_handler.
  run; intros [= <- <- <-]; leaf.
Qed.

Lemma generate_quiz_run (inp : Interaction) (st : State E) r st' evs :
  initialised (session st) ->
  generate_quiz E inp st = (r, st', evs) ->
  r = Ok tt /\ session st' = session st /\ caught evs /\
  (forall o, count o evs <= quiz_budget inp o) /\
  (forall doc q, document_content (session st) = Some doc ->
                 Forall (about doc q) evs).
Proof.
  intros Hinit. open_state st Hinit.
  unfold quiz_budget, generate_quiz. unfold_handler.
  run; intros [= <- <- <-]; leaf.
Qed.

End Parts.

Lemma answers_no_calls (evs : list event) : calls_of evs = [] -> answers evs = [].
Proof.
  induction evs as [|[c r|u] evs IH]; simpl; auto; discriminate.
Qed.

Lemma about_no_calls (doc question : string) (evs : list event) :
  calls_of evs = [] ->
  Forall (fun ev => forall s, ev <> Shown (UiSubheader s)) evs ->
  Forall (about doc question) evs.
Proof.
  induction evs as [|[c r|u] evs IH]; simpl; intros Hc Hs; [constructor|discriminate|].
  inversion Hs; subst. constructor; auto.
  destruct u; simpl; auto. intros ->. now apply (H1 "Document Summary:").
Qed.

Section Chat.

Variable E : Env.

Lemma show_messages_run (messages : list Turn) (st : State E) r st' evs :
  show_messages messages st = (r, st', evs) ->
  st' = st /\ calls_of evs = [] /\
  Forall (fun ev => forall s, ev <> Shown (UiSubheader s)) evs /\
  (Forall (fun t => parts t <> []) messages -> r = Ok tt).
Proof.
  revert r st' evs.
  induction messages as [|m rest IH]; simpl; intros r st' evs.
  - unfold ret. intros [= <- <- <-]. auto.
  - unfold_handler. unfold index.
    destruct (parts m) as [|p ps] eqn:Hp; simpl.
    + intros [= <- <- <-]. repeat split; auto. intros H. inversion H; congruence.
    + destruct (show_messages rest st) as [[r1 st1] ev1] eqn:Hrest.
      destruct (IH _ _ _ eq_refl) as (-> & Hcalls & Hshown & Hok).
      intros [= <- <- <-]. repeat split; auto.
      * constructor; auto. discriminate.
      * intros H. inversion H; auto.
Qed.

(** Brings the facts about the message loop into the context. *)
Ltac messages_shown :=
  try match goal with
  | H : show_messages _ _ = (_, _, _) |- _ =>
      let Hst := fresh "Hst" in
      let Hcalls := fresh "Hcalls" in
      let Hshown := fresh "Hshown" in
      let Hok := fresh "Hok" in
      destruct (show_messages_run _ _ _ _ _ H) as (Hst & Hcalls & Hshown & Hok);
      subst; clear H
  end.

Lemma chat_frame (inp : Interaction) (st : State E) r st' evs :
  initialised (session st) ->
  chat E inp st = (r, st', evs) ->
  initialised (session st') /\
  gemini_api_key (session st') = gemini_api_key (session st) /\
  document_content (session st') = document_content (session st) /\
  google_sheet_credentials (session st') = google_sheet_credentials (session st) /\
  chat_history (session st')
  = Some (history_of (session st)
          ++ exchanges (in_user_question inp) (answers evs))%list /\
  length (answers evs) <= 1.
Proof.
  intros Hinit. open_state st Hinit.
  unfold chat, save_to_google_sheet. unfold_handler.
  run; intros [= <- <- <-]; messages_shown; simpl;
    rewrite ?(answers_no_calls _ Hcalls); simpl;
    rewrite <- ?app_assoc, ?app_nil_r; simpl;
    (repeat split; try discriminate; try reflexivity; try lia).
Qed.

Lemma chat_log (inp : Interaction) (st : State E) r st' evs :
  initialised (session st) ->
  chat E inp st = (r, st', evs) ->
  (forall o, count o evs <= chat_budget inp o) /\
  caught_but_last evs /\ (r = Ok tt -> caught evs) /\
  (forall doc, document_content (session st) = Some doc ->
               Forall (about doc (in_user_question inp)) evs) /\
  In chat_box evs.
Proof.
  intros Hinit. open_state st Hinit.
  unfold chat_budget, chat, save_to_google_sheet. unfold_handler.
  run; intros [= <- <- <-]; messages_shown; simpl.
  all: split;
    [ let o := fresh "o" in
      intro o; try pose proof (count_no_calls o _ Hcalls) as Hzero;
      unfold count in *; simpl; destruct o; simpl; lia |].
  all: split;
    [ first [ left; solve [repeat (constructor; try discriminate);
                           auto using caught_no_calls]
            | match goal with
              | |- caught_but_last ?l => right; exists (removelast l)
              end;
              do 2 eexists; simpl; split; [reflexivity | repeat constructor] ] |].
  all: split;
    [ first [ intros _; solve [repeat (constructor; try discriminate);
                               auto using caught_no_calls]
            | discriminate ] |].
  all: split; [| left; reflexivity].
  all: intros doc [= <-];
    repeat (first [ apply about_no_calls; assumption
                  | constructor; simpl; auto; try discriminate ]).
Qed.




End Chat.

(** ** Credentials and upload *)

Section Upload.

Variable E : Env.

Lemma load_credentials_run (inp : Interaction) (st : State E) r st' evs :
  initialised (session st) ->
  load_credentials E inp st = (r, st', evs) ->
  world st' = world st /\
  initialised (session st') /\
  gemini_api_key (session st') = gemini_api_key (session st) /\
  chat_history (session st') = chat_history (session st) /\
  document_content (session st') = document_content (session st) /\
  calls_of evs = [] /\
  (forall doc q, Forall (about doc q) evs) /\
  (r = Ok tt \/
   exists f e, in_credentials_file inp = Some f /\
               json_load E (getvalue f) = Raise e /\ r = Raise e).
Proof.
  intros Hinit. open_state st Hinit.
  unfold load_credentials. unfold_handler.
  run; intros [= <- <- <-]; simpl; leaf.
Qed.

Lemma nonempty_eqb (d : string) : nonempty d = true -> String.eqb d "" = false.
Proof. destruct d; [discriminate | reflexivity]. Qed.

(** The guard of line 72. *)
Lemma process_upload_skip (inp : Interaction) (st : State E) (d : string) :
  document_content (session st) = Some d ->
  nonempty d = true \/ in_uploaded_file inp = None ->
  process_upload E inp st = (Ok tt, st, []).
Proof.
  intros Hd Hskip.
  unfold process_upload. unfold_handler.
  destruct Hskip as [Hne | ->]; [|reflexivity].
  destruct (in_uploaded_file inp); [|reflexivity].
  rewrite Hd. now rewrite (nonempty_eqb _ Hne).
Qed.

Lemma process_upload_run (inp : Interaction) (st : State E) r st' evs :
  initialised (session st) ->
  process_upload E inp st = (r, st', evs) ->
  initialised (session st') /\
  gemini_api_key (session st') = gemini_api_key (session st) /\
  chat_history (session st') = chat_history (session st) /\
  google_sheet_credentials (session st') = google_sheet_credentials (session st) /\
  caught evs /\
  (forall o, count o evs <= upload_budget o) /\
  (r = Ok tt \/
   exists f e, in_uploaded_file inp = Some f /\
               get_file_content E f = Raise e /\ r = Raise e).
Proof.
  intros Hinit. open_state st Hinit.
  unfold process_upload. unfold_handler.
  run; intros [= <- <- <-]; simpl; leaf.
Qed.

(** Lines 72-84 when the guard is passed and extraction returns. *)
Lemma process_upload_fresh (inp : Interaction) (st : State E) f content r st' evs :
  initialised (session st) ->
  document_content (session st) = Some "" ->
  in_uploaded_file inp = Some f ->
  get_file_content E f = Ok content ->
  process_upload E inp st = (r, st', evs) ->
  r = Ok tt /\
  document_content (session st') = Some content /\
  (content = unsupported -> evs = [Shown (UiError unsupported)]) /\
  (content <> unsupported ->
   forall k w1 m w2,
     gemini_api_key (session st) = Some k ->
     genai_configure E k (world st) = (Ok tt, w1) ->
     GenerativeModel E "gemini-pro" w1 = (Ok m, w2) ->
     evs = ([Called (CConfigure k) Returned;
             Called (CGenerativeModel "gemini-pro") Returned]
            ++ summary_events content
                 (fst (generate_content E m (summarize_prompt content) w2)))%list).
Proof.
  intros Hinit Hdoc Hfile Hcontent. open_state st Hinit.
  simpl in Hdoc. injection Hdoc as ->.
  unfold process_upload. unfold_handler. simpl.
  rewrite Hfile. simpl. rewrite Hcontent. simpl.
  destruct (String.eqb_spec content "Unsupported file type.") as [-> | Hneq]; simpl.
  - intros [= <- <- <-]. repeat split. intros []. reflexivity.
  - destruct (genai_configure E k w) as [[[]|e1] w1'] eqn:Hconf; simpl.
    + destruct (GenerativeModel E "gemini-pro" w1') as [[m'|e2] w2'] eqn:Hmodel; simpl.
      * destruct (generate_content E m' (summarize_prompt content) w2')
          as [[resp|e3] w3'] eqn:Hgen; simpl;
          [destruct (text resp) as [t|e4] eqn:Htext; simpl |];
          intros [= <- <- <-]; (repeat split; [intros ->; now elim Hneq|]);
          intros _ k0 w1 m w2 [= <-] Hc Hm;
          rewrite Hconf in Hc; injection Hc as <-;
          rewrite Hmodel in Hm; injection Hm as <- <-;
          rewrite Hgen; unfold summary_events; simpl; rewrite ?Htext;
          reflexivity.
      * intros [= <- <- <-]. repeat split; [intros ->; now elim Hneq|].
        intros _ k0 w1 m w2 [= <-] Hc Hm.
        rewrite Hconf in Hc; injection Hc as <-.
        rewrite Hmodel in Hm. discriminate.
    + intros [= <- <- <-]. repeat split; [intros ->; now elim Hneq|].
      intros _ k0 w1 m w2 [= <-] Hc. rewrite Hconf in Hc. discriminate.
Qed.

(** Lines 76-82 when [get_gemini_model] raises: no request is sent. *)
Lemma process_upload_no_model (inp : Interaction) (st : State E) f content r st' evs :
  initialised (session st) ->
  document_content (session st) = Some "" ->
  in_uploaded_file inp = Some f ->
  get_file_content E f = Ok content ->
  content <> unsupported ->
  process_upload E inp st = (r, st', evs) ->
  forall k, gemini_api_key (session st) = Some k ->
    (forall e w1,
       genai_configure E k (world st) = (Raise e, w1) ->
       evs = [Called (CConfigure k) (Raised e);
              Shown (UiError ("Error summarizing document: " ++ str_of_exn e))]) /\
    (forall w1 e w2,
       genai_configure E k (world st) = (Ok tt, w1) ->
       GenerativeModel E "gemini-pro" w1 = (Raise e, w2) ->
       evs = [Called (CConfigure k) Returned;
              Called (CGenerativeModel "gemini-pro") (Raised e);
              Shown (UiError ("Error summarizing document: " ++ str_of_exn e))]).
Proof.
  intros Hinit Hdoc Hfile Hcontent Hneq. open_state st Hinit.
  simpl in Hdoc. injection Hdoc as ->.
  unfold process_upload. unfold_handler. simpl.
  rewrite Hfile. simpl. rewrite Hcontent. simpl.
  destruct (String.eqb_spec content "Unsupported file type.") as [-> | _];
    [now elim Hneq|]. simpl.
  intros Hrun k0 [= <-]. revert Hrun.
  destruct (genai_configure E k w) as [[[]|e1] w1'] eqn:Hconf; simpl.
  - destruct (GenerativeModel E "gemini-pro" w1') as [[m'|e2] w2'] eqn:Hmodel; simpl.
    + intros _. split; [intros e w1 [=]|].
      intros w1 e w2 [= <-] Hm. rewrite Hmodel in Hm. discriminate.
    + intros [= <- <- <-]. split; [intros e w1 [=]|].
      intros w1 e w2 [= <-] Hm. rewrite Hmodel in Hm. injection Hm as <- <-.
      reflexivity.
  - intros [= <- <- <-]. split; [|intros w1 e w2 [=]].
    intros e w1 [= <- <-]. reflexivity.
Qed.

End Upload.

(** ** [main] as a sequence of its parts *)

Section Main.

Variable E : Env.

Lemma keyed_initialised (inp : Interaction) (st : State E) :
  initialised (session (keyed E inp st)).
Proof.
  destruct st as [w [[k|] [h|] [d|] [c|]]]; unfold initialised; simpl;
    repeat split; discriminate.
Qed.

Lemma main_early_return (inp : Interaction) (st : State E) :
  nonempty (in_gemini_api_key inp) = false ->
  main E inp st
  = (Ok tt,
     {| world := world st; session := with_defaults (session st) |},
     [Shown (UiTitle "Chatbot for Document Q&A and Statistical Analysis");
      Shown (UiWarning "Please enter your Gemini API Key to proceed.")]).
Proof.
  intros Hkey. unfold main. unfold_handler. simpl. now rewrite Hkey.
Qed.

Lemma main_ran (inp : Interaction) (st : State E) r st' evs :
  nonempty (in_gemini_api_key inp) = true ->
  main E inp st = (r, st', evs) ->
  exists evs', evs = (header ++ evs')%list /\ ran E inp (keyed E inp st) r st' evs'.
Proof.
  intros Hkey.
  pose proof (keyed_initialised inp st) as Hinit0.
  unfold main, interface. unfold_handler. simpl. rewrite Hkey. simpl.
  change {| world := world st;
            session := set_gemini_api_key (in_gemini_api_key inp)
                         (with_defaults (session st)) |}
    with (keyed E inp st).
  destruct (load_credentials E inp (keyed E inp st)) as [[r1 st1] ev1] eqn:Hload.
  destruct (load_credentials_run _ _ _ _ _ _ Hinit0 Hload) as (_ & Hinit1 & _).
  destruct r1 as [[]|e1].
  2: { intros [= <- <- <-]. eexists. split; [reflexivity|]. now constructor. }
  destruct (process_upload E inp st1) as [[r2 st2] ev2] eqn:Hup.
  destruct (process_upload_run _ _ _ _ _ _ Hinit1 Hup) as (Hinit2 & _).
  destruct r2 as [[]|e2].
  2: { intros [= <- <- <-]. eexists. split; [reflexivity|].
       eapply ran_upload_raise; eauto. }
  destruct (initialised_fields _ Hinit2) as (k & h & d & c & Hs2).
  rewrite Hs2. simpl.
  destruct (nonempty d) eqn:Hd.
  2: { intros [= <- <- <-]. eexists. split; [simpl; rewrite app_nil_r; reflexivity|].
       eapply ran_no_document; eauto. rewrite Hs2. simpl.
       destruct d; [reflexivity | discriminate]. }
  destruct (propose_analysis E inp st2) as [[r3 st3] ev3] eqn:Hprop.
  destruct (propose_analysis_run _ _ _ _ _ _ Hinit2 Hprop) as (-> & Hs3 & _).
  assert (Hinit3 : initialised (session st3)) by now rewrite Hs3.
  destruct (generate_quiz E inp st3) as [[r4 st4] ev4] eqn:Hquiz.
  destruct (generate_quiz_run _ _ _ _ _ _ Hinit3 Hquiz) as (-> & Hs4 & _).
  destruct (chat E inp st4) as [[r5 st5] ev5] eqn:Hchat.
  assert (Heq : evs = (header ++ ev1 ++ ev2 ++ ev3 ++ ev4 ++ ev5)%list ->
          exists evs', evs = (header ++ evs')%list /\
                       ran E inp (keyed E inp st) r5 st5 evs').
  { intros ->. eexists. split; [reflexivity|].
    eapply ran_interface; eauto. rewrite Hs2. reflexivity. }
  destruct r5; intros [= <- <- <-]; apply Heq; simpl;
    now rewrite <- ?app_assoc.
Qed.

End Main.

(** ** What every run of [main] satisfies *)

Lemma caught_but_last_app (a b : list event) :
  caught a -> caught_but_last b -> caught_but_last (a ++ b)%list.
Proof.
  intros Ha [Hb | (before & c & e & -> & Hb)].
  - left. now apply caught_app.
  - right. exists (a ++ before)%list, c, e.
    split; [now rewrite app_assoc | now apply caught_app].
Qed.

Lemma history_of_with_defaults (s : SessionState) :
  history_of (with_defaults s) = history_of s.
Proof. unfold history_of. simpl. now destruct (chat_history s). Qed.

Lemma no_answers (evs : list event) (n : nat) :
  count OpSend evs <= n -> n = 0 -> answers evs = [].
Proof. intros Hle ->. apply answers_no_send. lia. Qed.

Lemma propose_budget_send (inp : Interaction) : propose_budget inp OpSend = 0.
Proof. unfold propose_budget. now destruct (in_propose_clicked inp). Qed.

Lemma quiz_budget_send (inp : Interaction) : quiz_budget inp OpSend = 0.
Proof. unfold quiz_budget. now destruct (in_quiz_clicked inp). Qed.

Lemma budget_summarize (inp : Interaction) :
  propose_budget inp OpSummarize = 0 /\ quiz_budget inp OpSummarize = 0 /\
  chat_budget inp OpSummarize = 0.
Proof.
  unfold propose_budget, quiz_budget, chat_budget.
  destruct (in_propose_clicked inp), (in_quiz_clicked inp),
    (nonempty (in_user_question inp)); auto.
Qed.

Section Runs.

Variable E : Env.

Lemma ran_facts (inp : Interaction) (st0 : State E) r st' evs :
  initialised (session st0) ->
  ran E inp st0 r st' evs ->
  initialised (session st') /\
  gemini_api_key (session st') = gemini_api_key (session st0) /\
  chat_history (session st')
  = Some (history_of (session st0)
          ++ exchanges (in_user_question inp) (answers evs))%list /\
  length (answers evs) <= 1 /\
  (forall o, count o evs <= budget inp o) /\
  caught_but_last evs /\
  (r = Ok tt -> caught evs).
Proof.
  intros Hinit0 Hran.
  assert (Hhist0 : chat_history (session st0) = Some (history_of (session st0))).
  { destruct (initialised_fields _ Hinit0) as (k & h & d & c & ->). reflexivity. }
  destruct Hran as
    [ e st1 ev1 Hload
    | st1 ev1 e st2 ev2 Hload Hup
    | st1 ev1 st2 ev2 Hload Hup Hdoc
    | st1 ev1 st2 ev2 d st3 ev3 st4 ev4 r st5 ev5 Hload Hup Hdoc Hd Hprop Hquiz Hchat ].
  all: destruct (load_credentials_run _ _ _ _ _ _ Hinit0 Hload)
         as (_ & Hinit1 & Hkey1 & Hhist1 & _ & Hcalls1 & _ & _).
  all: pose proof (answers_no_calls _ Hcalls1) as Hans1.
  all: pose proof (caught_no_calls _ Hcalls1) as Hcaught1.
  all: pose proof (fun o => count_no_calls o _ Hcalls1) as Hcount1.
  2-4: destruct (process_upload_run _ _ _ _ _ _ Hinit1 Hup)
         as (Hinit2 & Hkey2 & Hhist2 & _ & Hcaught2 & Hcount2 & _).
  2-4: pose proof (no_answers _ _ (Hcount2 OpSend) eq_refl) as Hans2.
  - rewrite Hans1. simpl. rewrite app_nil_r.
    split; [assumption | repeat split; try congruence; auto].
    + intros o. rewrite Hcount1. lia.
    + now left.
  - rewrite answers_app, Hans1, Hans2. simpl. rewrite app_nil_r.
    split; [assumption | repeat split; try congruence; auto].
    + intros o. rewrite count_app, Hcount1. specialize (Hcount2 o).
      unfold budget. lia.
    + left. now apply caught_app.
  - rewrite answers_app, Hans1, Hans2. simpl. rewrite app_nil_r.
    split; [assumption | repeat split; try congruence; auto].
    + intros o. rewrite count_app, Hcount1. specialize (Hcount2 o).
      unfold budget. lia.
    + left. now apply caught_app.
    + intros _. now apply caught_app.
  - destruct (propose_analysis_run _ _ _ _ _ _ Hinit2 Hprop)
      as (_ & Hs3 & Hcaught3 & Hcount3 & _).
    assert (Hinit3 : initialised (session st3)) by now rewrite Hs3.
    destruct (generate_quiz_run _ _ _ _ _ _ Hinit3 Hquiz)
      as (_ & Hs4 & Hcaught4 & Hcount4 & _).
    assert (Hinit4 : initialised (session st4)) by now rewrite Hs4.
    destruct (chat_frame _ _ _ _ _ _ Hinit4 Hchat)
      as (Hinit5 & Hkey5 & _ & _ & Hhist5 & Hlen5).
    destruct (chat_log _ _ _ _ _ _ Hinit4 Hchat)
      as (Hcount5 & Hlast5 & Hcaught5 & _).
    pose proof (no_answers _ _ (Hcount3 OpSend) (propose_budget_send inp)) as Hans3.
    pose proof (no_answers _ _ (Hcount4 OpSend) (quiz_budget_send inp)) as Hans4.
    rewrite !answers_app, Hans1, Hans2, Hans3, Hans4. simpl.
    assert (Hh4 : history_of (session st4) = history_of (session st0)).
    { unfold history_of. now rewrite Hs4, Hs3, Hhist2, Hhist1. }
    rewrite Hh4 in Hhist5.
    split; [assumption | repeat split; try congruence; auto].
    + intros o. rewrite !count_app, Hcount1.
      specialize (Hcount2 o). specialize (Hcount3 o).
      specialize (Hcount4 o). specialize (Hcount5 o).
      unfold budget. lia.
    + repeat (apply caught_but_last_app; auto).
    + intros Hr. repeat (apply caught_app; auto).
Qed.

End Runs.

Lemma about_header (doc q : string) : Forall (about doc q) header.
Proof. repeat constructor. Qed.

Lemma about_no_summary (doc q : string) (evs : list event) :
  Forall (about doc q) evs -> ~ In (Shown (UiSubheader "Document Summary:")) evs.
Proof.
  intros Hall Hin. rewrite Forall_forall in Hall.
  specialize (Hall _ Hin). simpl in Hall. congruence.
Qed.

Section Document.

Variable E : Env.

(** Lines 86-129 once a document is stored. *)
Lemma interface_facts (inp : Interaction) (st2 : State E) d st3 ev3 st4 ev4 r st5 ev5 :
  initialised (session st2) ->
  document_content (session st2) = Some d ->
  propose_analysis E inp st2 = (Ok tt, st3, ev3) ->
  generate_quiz E inp st3 = (Ok tt, st4, ev4) ->
  chat E inp st4 = (r, st5, ev5) ->
  document_content (session st5) = Some d /\
  Forall (about d (in_user_question inp)) (ev3 ++ ev4 ++ ev5)%list /\
  count OpSummarize (ev3 ++ ev4 ++ ev5)%list = 0 /\
  In chat_box (ev3 ++ ev4 ++ ev5)%list.
Proof.
  intros Hinit2 Hdoc Hprop Hquiz Hchat.
  destruct (propose_analysis_run _ _ _ _ _ _ Hinit2 Hprop)
    as (_ & Hs3 & _ & Hcount3 & Habout3).
  assert (Hinit3 : initialised (session st3)) by now rewrite Hs3.
  destruct (generate_quiz_run _ _ _ _ _ _ Hinit3 Hquiz)
    as (_ & Hs4 & _ & Hcount4 & Habout4).
  assert (Hinit4 : initialised (session st4)) by now rewrite Hs4.
  destruct (chat_frame _ _ _ _ _ _ Hinit4 Hchat) as (_ & _ & Hdoc5 & _).
  destruct (chat_log _ _ _ _ _ _ Hinit4 Hchat) as (Hcount5 & _ & _ & Habout5 & Hbox).
  assert (Hdoc3 : document_content (session st3) = Some d) by now rewrite Hs3.
  assert (Hdoc4 : document_content (session st4) = Some d) by now rewrite Hs4.
  destruct (budget_summarize inp) as (Hb3 & Hb4 & Hb5).
  specialize (Hcount3 OpSummarize). specialize (Hcount4 OpSummarize).
  specialize (Hcount5 OpSummarize).
  repeat split.
  - congruence.
  - rewrite !Forall_app. auto.
  - rewrite !count_app. lia.
  - rewrite !in_app_iff. auto.
Qed.

Lemma keyed_document (inp : Interaction) (st : State E) :
  document_content (session (keyed E inp st))
  = document_content (with_defaults (session st)).
Proof. reflexivity. Qed.

Lemma with_defaults_document (s : SessionState) (d : string) :
  document_content s = Some d -> document_content (with_defaults s) = Some d.
Proof. simpl. now intros ->. Qed.

(** A run of [main] that starts with a non-empty stored document. *)
Lemma main_with_document (inp : Interaction) (st : State E) d r st' evs :
  document_content (session st) = Some d ->
  nonempty d = true ->
  main E inp st = (r, st', evs) ->
  document_content (session st') = Some d /\
  count OpSummarize evs = 0 /\
  Forall (about d (in_user_question inp)) evs /\
  (nonempty (in_gemini_api_key inp) = true ->
   (forall f, in_credentials_file inp = Some f ->
              exists j, json_load E (getvalue f) = Ok j) ->
   In chat_box evs).
Proof.
  intros Hdoc Hd Hmain.
  destruct (nonempty (in_gemini_api_key inp)) eqn:Hkey.
  2: { rewrite (main_early_return E inp st Hkey) in Hmain.
       injection Hmain as <- <- <-. simpl. rewrite Hdoc.
       repeat split; try discriminate. repeat constructor. }
  destruct (main_ran E inp st r st' evs Hkey Hmain) as (evs' & -> & Hran).
  pose proof (keyed_initialised E inp st) as Hinit0.
  assert (Hdoc0 : document_content (session (keyed E inp st)) = Some d).
  { rewrite keyed_document. now apply with_defaults_document. }
  destruct Hran as
    [ e st1 ev1 Hload
    | st1 ev1 e st2 ev2 Hload Hup
    | st1 ev1 st2 ev2 Hload Hup Hdoc2
    | st1 ev1 st2 ev2 d2 st3 ev3 st4 ev4 r st5 ev5
        Hload Hup Hdoc2 Hd2 Hprop Hquiz Hchat ].
  all: destruct (load_credentials_run _ _ _ _ _ _ Hinit0 Hload)
         as (_ & Hinit1 & _ & _ & Hdoc1 & Hcalls1 & Habout1 & Hres1).
  all: rewrite Hdoc0 in Hdoc1.
  2-4: rewrite (process_upload_skip E inp st1 d Hdoc1 (or_introl Hd)) in Hup.
  - repeat split; auto.
    + rewrite count_app. now rewrite (count_no_calls _ _ Hcalls1).
    + rewrite Forall_app. auto using about_header.
    + intros _ Hjson. destruct Hres1 as [Hr | (f & e' & Hf & Hraise & _)];
        [discriminate|].
      destruct (Hjson f Hf) as [j Hj]. congruence.
  - discriminate.
  - injection Hup as <- <-. rewrite Hdoc1 in Hdoc2.
    injection Hdoc2 as ->. discriminate.
  - injection Hup as <- <-. rewrite Hdoc1 in Hdoc2. injection Hdoc2 as <-.
    destruct (interface_facts inp st1 d st3 ev3 st4 ev4 r st5 ev5
                Hinit1 Hdoc1 Hprop Hquiz Hchat)
      as (Hdoc5 & Habout & Hcount & Hbox).
    repeat split; auto.
    + rewrite !count_app in *. rewrite (count_no_calls _ _ Hcalls1). simpl.
      exact Hcount.
    + rewrite !Forall_app in *. repeat split; auto using about_header.
      * apply Habout.
      * apply Habout.
      * apply Habout.
    + intros _ _. rewrite !in_app_iff in *. auto.
Qed.

Lemma run_session_keeps_document (inps : list Interaction) (st : State E) d :
  document_content (session st) = Some d ->
  nonempty d = true ->
  document_content (session (fst (run_session E inps st))) = Some d /\
  count OpSummarize (snd (run_session E inps st)) = 0 /\
  ~ In (Shown (UiSubheader "Document Summary:")) (snd (run_session E inps st)).
Proof.
  revert st. induction inps as [|inp rest IH]; intros st Hdoc Hd; simpl.
  - auto.
  - destruct (main E inp st) as [[r st1] ev1] eqn:Hmain.
    destruct (main_with_document inp st d r st1 ev1 Hdoc Hd Hmain)
      as (Hdoc1 & Hcount1 & Habout1 & _).
    destruct (IH st1 Hdoc1 Hd) as (Hdoc2 & Hcount2 & Hnone2).
    destruct (run_session E rest st1) as [st2 ev2]. simpl in *.
    repeat split; auto.
    + rewrite count_app. lia.
    + rewrite in_app_iff. intros [Hin | Hin]; [|auto].
      exact (about_no_summary _ _ _ Habout1 Hin).
Qed.

End Document.

(** ** Summarising an upload *)

Lemma count_summary_events (content : string) (res : result Response) :
  count OpSummarize (summary_events content res) = 1.
Proof.
  destruct res as [resp|e]; unfold summary_events;
    [destruct (text resp)|]; reflexivity.
Qed.

Section Summary.

Variable E : Env.

(** The part of a run that follows a successful [process_upload]. *)
Lemma ran_tail (inp : Interaction) (st0 : State E) r st' evs :
  initialised (session st0) ->
  ran E inp st0 r st' evs ->
  (exists e st1 ev1, load_credentials E inp st0 = (Raise e, st1, ev1)) \/
  exists st1 ev1 r2 st2 ev2 tail,
    load_credentials E inp st0 = (Ok tt, st1, ev1) /\
    process_upload E inp st1 = (r2, st2, ev2) /\
    evs = (ev1 ++ ev2 ++ tail)%list /\
    (r2 = Ok tt ->
     document_content (session st') = document_content (session st2) /\
     count OpSummarize tail = 0 /\
     forall d, document_content (session st2) = Some d ->
               Forall (about d (in_user_question inp)) tail /\
               (nonempty d = true -> In chat_box tail)).
Proof.
  intros Hinit0 Hran.
  destruct Hran as
    [ e st1 ev1 Hload
    | st1 ev1 e st2 ev2 Hload Hup
    | st1 ev1 st2 ev2 Hload Hup Hdoc2
    | st1 ev1 st2 ev2 d2 st3 ev3 st4 ev4 r st5 ev5
        Hload Hup Hdoc2 Hd2 Hprop Hquiz Hchat ].
  - left. eauto.
  - right. exists st1, ev1, (Raise e), st2, ev2, [].
    rewrite app_nil_r. repeat split; auto; discriminate.
  - right. exists st1, ev1, (Ok tt), st2, ev2, [].
    rewrite app_nil_r.
    split; [assumption|]. split; [assumption|]. split; [reflexivity|].
    intros _. split; [reflexivity|]. split; [reflexivity|].
    intros d Hd. split; [constructor|].
    intros Hne. rewrite Hdoc2 in Hd. injection Hd as <-. discriminate.
  - right. exists st1, ev1, (Ok tt), st2, ev2, (ev3 ++ ev4 ++ ev5)%list.
    destruct (load_credentials_run _ _ _ _ _ _ Hinit0 Hload) as (_ & Hinit1 & _).
    destruct (process_upload_run _ _ _ _ _ _ Hinit1 Hup) as (Hinit2 & _).
    destruct (interface_facts E inp st2 d2 st3 ev3 st4 ev4 r st5 ev5
                Hinit2 Hdoc2 Hprop Hquiz Hchat)
      as (Hdoc5 & Habout & Hcount & Hbox).
    repeat split; auto; congruence.
Qed.

(** C6, as the code has it.  When the key field is filled, the
    credentials file (if any) parses, a file is uploaded while the stored
    document content is empty, and extraction returns [content]:
    [content] is stored as the document content.  If [content] is the
    unsupported-file marker no summarization request is made.  Otherwise
    the model is constructed first, inside the handler.  If
    [genai.configure] or [GenerativeModel] raises, no request is sent
    and the handler's message is displayed.  If the model is built,
    exactly one summarization request is sent, with the prompt
    "Summarize the following document:", two line feeds and [content];
    the log then holds that request followed by the summary heading and
    the response text, or by the heading and the handler's message when
    reading the text raises, or by the handler's message alone when the
    request raises. *)
Theorem upload_is_summarized (inp : Interaction) (st : State E)
    (f : UploadedFile) (content : string) r st' evs :
  nonempty (in_gemini_api_key inp) = true ->
  (forall cf, in_credentials_file inp = Some cf ->
              exists j, json_load E (getvalue cf) = Ok j) ->
  in_uploaded_file inp = Some f ->
  document_content (with_defaults (session st)) = Some "" ->
  get_file_content E f = Ok content ->
  main E inp st = (r, st', evs) ->
  document_content (session st') = Some content /\
  (content = "Unsupported file type." -> count OpSummarize evs = 0) /\
  (content <> "Unsupported file type." ->
   (forall e w1,
      genai_configure E (in_gemini_api_key inp) (world st) = (Raise e, w1) ->
      count OpSummarize evs = 0 /\
      In (Shown (UiError ("Error summarizing document: " ++ str_of_exn e))) evs) /\
   (forall w1 e w2,
      genai_configure E (in_gemini_api_key inp) (world st) = (Ok tt, w1) ->
      GenerativeModel E "gemini-pro" w1 = (Raise e, w2) ->
      count OpSummarize evs = 0 /\
      In (Shown (UiError ("Error summarizing document: " ++ str_of_exn e))) evs) /\
   (forall w1 m w2,
      genai_configure E (in_gemini_api_key inp) (world st) = (Ok tt, w1) ->
      GenerativeModel E "gemini-pro" w1 = (Ok m, w2) ->
      count OpSummarize evs = 1 /\
      exists before after,
        evs = (before
               ++ summary_events content
                    (fst (generate_content E m
                            ("Summarize the following document:"
                             ++ nl ++ nl ++ content) w2))
               ++ after)%list)).
Proof.
  intros Hkey Hjson Hfile Hempty Hcontent Hmain.
  destruct (main_ran E inp st r st' evs Hkey Hmain) as (evs' & -> & Hran).
  pose proof (keyed_initialised E inp st) as Hinit0.
  destruct (ran_tail inp _ _ _ _ Hinit0 Hran)
    as [(e & st1 & ev1 & Hload)
       | (st1 & ev1 & r2 & st2 & ev2 & tail & Hload & Hup & -> & Htail)];
    destruct (load_credentials_run _ _ _ _ _ _ Hinit0 Hload)
      as (Hworld1 & Hinit1 & Hkey1 & _ & Hdoc1 & Hcalls1 & _ & Hres1).
  { destruct Hres1 as [? | (cf & e' & Hcf & Hraise & _)]; [discriminate|].
    destruct (Hjson cf Hcf) as [j Hj]. congruence. }
  rewrite keyed_document, Hempty in Hdoc1.
  destruct (process_upload_fresh E inp st1 f content r2 st2 ev2
              Hinit1 Hdoc1 Hfile Hcontent Hup)
    as (-> & Hdoc2 & Hmarker & Hsummary).
  destruct (Htail eq_refl) as (Hdoc' & Hcount & _).
  pose proof (count_no_calls OpSummarize _ Hcalls1) as Hcount1.
  simpl in Hworld1, Hkey1.
  split; [congruence|]. split.
  - intros Hc. rewrite (Hmarker Hc), !count_app, Hcount1, Hcount. reflexivity.
  - intros Hc.
    destruct (process_upload_no_model E inp st1 f content _ st2 ev2
                Hinit1 Hdoc1 Hfile Hcontent Hc Hup (in_gemini_api_key inp) Hkey1)
      as (Hnoconf & Hnomodel).
    split; [|split].
    + intros e w1 Hconf. rewrite <- Hworld1 in Hconf.
      rewrite (Hnoconf e w1 Hconf). split.
      * rewrite !count_app, Hcount1, Hcount. reflexivity.
      * rewrite !in_app_iff. right. right. left. right. left. reflexivity.
    + intros w1 e w2 Hconf Hmodel. rewrite <- Hworld1 in Hconf.
      rewrite (Hnomodel w1 e w2 Hconf Hmodel). split.
      * rewrite !count_app, Hcount1, Hcount. reflexivity.
      * rewrite !in_app_iff. right. right. left. right. right. left. reflexivity.
    + intros w1 m w2 Hconf Hmodel. rewrite <- Hworld1 in Hconf.
      rewrite (Hsummary Hc (in_gemini_api_key inp) w1 m w2 Hkey1 Hconf Hmodel).
      split.
      * rewrite !count_app, Hcount1, Hcount, count_summary_events. reflexivity.
      * exists (header ++ ev1
                ++ [Called (CConfigure (in_gemini_api_key inp)) Returned;
                    Called (CGenerativeModel "gemini-pro") Returned])%list, tail.
        now rewrite <- !app_assoc.
Qed.

End Summary.

Lemma upload_is_summarized_witness :
  document_content
    (session (snd (fst (main (mock no_faults) (visit (Some notes) false false "")
                          (fresh no_faults))))) = Some "hi" /\
  count OpSummarize
    (snd (main (mock no_faults) (visit (Some notes) false false "")
            (fresh no_faults))) = 1.
Proof.
  set (x := main (mock no_faults) (visit (Some notes) false false "")
              (fresh no_faults)).
  assert (Hx : x = (fst (fst x), snd (fst x), snd x)) by reflexivity.
  assert (Hjson : forall cf,
             in_credentials_file (visit (Some notes) false false "") = Some cf ->
             exists j, json_load (mock no_faults) (getvalue cf) = Ok j)
    by (intros cf _; eexists; reflexivity).
  destruct (upload_is_summarized (mock no_faults)
              (visit (Some notes) false false "") (fresh no_faults) notes "hi"
              _ _ _ eq_refl Hjson eq_refl eq_refl eq_refl Hx)
    as (Hdoc & _ & Hsum).
  split; [exact Hdoc|].
  assert (Hneq : "hi" <> "Unsupported file type.") by discriminate.
  exact (proj1 (proj2 (proj2 (Hsum Hneq)) 1 tt 2 eq_refl eq_refl)).
Defined.

(** C6, as stated, fails: a file is uploaded while the stored content is
    empty and extraction yields "hi", not the marker, yet no
    summarization request is sent, because [GenerativeModel] raises
    inside the handler of lines 76-82; the content is stored all the
    same and the handler's message is displayed. *)
Lemma upload_without_summary :
  let inp := visit (Some notes) false false "" in
  let st := fresh only_bad_model in
  let evs := snd (main (mock only_bad_model) inp st) in
  in_uploaded_file inp = Some notes /\
  document_content (with_defaults (session st)) = Some "" /\
  get_file_content (mock only_bad_model) notes = Ok "hi" /\
  "hi" <> "Unsupported file type." /\
  document_content (session (snd (fst (main (mock only_bad_model) inp st))))
  = Some "hi" /\
  (forall p reply, ~ In (Called (CGenerateContent p) reply) evs) /\
  count OpSummarize evs <> 1 /\
  In (Shown (UiError "Error summarizing document: model failed")) evs.
Proof.
  cbv zeta. split; [reflexivity|]. split; [reflexivity|]. split; [reflexivity|].
  split; [discriminate|]. split; [reflexivity|]. split; [|split].
  - intros p reply Hin. vm_compute in Hin.
    repeat (destruct Hin as [Hin | Hin]; [discriminate Hin|]). destruct Hin.
  - vm_compute. discriminate.
  - vm_compute. tauto.
Qed.

(** ** Chat history *)

Section History.

Variable E : Env.

Lemma main_history (inp : Interaction) (st : State E) r st' evs :
  main E inp st = (r, st', evs) ->
  history_of (session st')
  = (history_of (session st)
     ++ exchanges (in_user_question inp) (answers evs))%list /\
  length (answers evs) <= 1.
Proof.
  intros Hmain.
  destruct (nonempty (in_gemini_api_key inp)) eqn:Hkey.
  - destruct (main_ran E inp st r st' evs Hkey Hmain) as (evs' & -> & Hran).
    destruct (ran_facts E inp _ _ _ _ (keyed_initialised E inp st) Hran)
      as (_ & _ & Hhist & Hlen & _).
    rewrite answers_app. simpl. split; [|exact Hlen].
    unfold history_of at 1. rewrite Hhist.
    f_equal. exact (history_of_with_defaults (session st)).
  - rewrite (main_early_return E inp st Hkey) in Hmain.
    injection Hmain as <- <- <-. split; [|simpl; lia].
    cbn [session answers exchanges flat_map].
    now rewrite app_nil_r, history_of_with_defaults.
Qed.

Lemma run_session_history (inps : list Interaction) (st : State E) :
  exists added,
    history_of (session (fst (run_session E inps st)))
    = (history_of (session st) ++ added)%list.
Proof.
  revert st. induction inps as [|inp rest IH]; intros st; simpl.
  - exists []. now rewrite app_nil_r.
  - destruct (main E inp st) as [[r st1] ev1] eqn:Hmain.
    destruct (main_history inp st r st1 ev1 Hmain) as (Hone & _).
    destruct (IH st1) as (added & Hrest).
    destruct (run_session E rest st1) as [st2 ev2]. simpl in *.
    exists (exchanges (in_user_question inp) (answers ev1) ++ added)%list.
    now rewrite Hrest, Hone, app_assoc.
Qed.

(** What one run does to the chat history: nothing, unless a
    [send_message] call returned; then the user turn is appended, and the
    model turn after it only when the text of the response could be
    read. *)
Lemma chat_history_after_run (inp : Interaction) (st : State E) r st' evs :
  main E inp st = (r, st', evs) ->
  match answers evs with
  | [] => history_of (session st') = history_of (session st)
  | [Ok t] =>
      history_of (session st')
      = (history_of (session st)
         ++ [{| role := "user"; parts := [in_user_question inp] |};
             {| role := "model"; parts := [t] |}])%list
  | [Raise _] =>
      history_of (session st')
      = (history_of (session st)
         ++ [{| role := "user"; parts := [in_user_question inp] |}])%list
  | _ :: _ :: _ => False
  end.
Proof.
  intros Hmain.
  destruct (main_history inp st r st' evs Hmain) as (Hhist & Hlen).
  destruct (answers evs) as [|[t|e] [|t' more]]; simpl in *;
    try lia; try exact Hhist.
  now rewrite app_nil_r in Hhist.
Qed.

End History.

(** C2, where the code departs from it.  The stored history is empty and
    a question is asked; [send_message] returns a response without a
    valid part.  Line 120 has already appended the user turn when line
    121 reads the text of the response, which raises: the handler shows
    the error, and the history is left with the user turn alone. *)
Lemma user_turn_appended_without_answer :
  let st := loaded only_bad_text in
  let inp := visit (Some notes) false false "why?" in
  let evs := snd (main (mock only_bad_text) inp st) in
  let st' := snd (fst (main (mock only_bad_text) inp st)) in
  history_of (session st) = [] /\
  In (Called (CSendMessage ("Document content: hi" ++ nl ++ nl
                            ++ "User question: why?"))
        (Responded (Raise (Exception "no valid part")))) evs /\
  history_of (session st') = [{| role := "user"; parts := ["why?"] |}] /\
  In (Shown (UiError "Error communicating with Gemini: no valid part")) evs.
Proof.
  cbv zeta. repeat split.
  - vm_compute. auto 10.
  - vm_compute. auto 20.
Qed.

(** ** Before and after the question box *)












Section Box.

Variable E : Env.



End Box.

(** ** No retries *)



Section Retry.

Variable E : Env.


End Retry.



(** ** Exception handling *)


Lemma turns_ok_history (s : SessionState) :
  turns_ok s <-> Forall (fun t => parts t <> []) (history_of s).
Proof.
  unfold turns_ok, history_of.
  destruct (chat_history s) as [h|]; split; intros H.
  - now apply H.
  - now intros h' [= <-].
  - constructor.
  - intros h' [=].
Qed.

(** The hypothesis on the stored turns below holds in every session the
    program itself has built. *)
Lemma turns_ok_reachable (E : Env) (inps : list Interaction) (st : State E) :
  turns_ok (session st) ->
  turns_ok (session (fst (run_session E inps st))).
Proof.
  revert st. induction inps as [|inp rest IH]; intros st Hst; simpl; [exact Hst|].
  destruct (main E inp st) as [[r st1] ev1] eqn:Hmain.
  destruct (main_history E inp st r st1 ev1 Hmain) as (Hone & _).
  assert (Hst1 : turns_ok (session st1)).
  { rewrite turns_ok_history in *. rewrite Hone, Forall_app. split; [exact Hst|].
    clear. unfold exchanges. induction (answers ev1) as [|t ts IHts]; simpl.
    - constructor.
    - destruct t as [s|e]; simpl; repeat (constructor; [discriminate|]);
        exact IHts. }
  specialize (IH st1 Hst1).
  destruct (run_session E rest st1) as [st2 ev2]. exact IH.
Qed.

Section Handlers.

Variable E : Env.


End Handlers.



(** ** Missing key *)

Section Key.

Variable E : Env.

(** C10.  With an empty key field [main] shows the title and the warning
    and returns: the world is untouched, no library call is made, and
    the session state is the old one with the absent fields set to their
    defaults. *)
Theorem empty_key_returns_early (inp : Interaction) (st : State E) :
  nonempty (in_gemini_api_key inp) = false ->
  main E inp st
  = (Ok tt,
     {| world := world st; session := with_defaults (session st) |},
     [Shown (UiTitle "Chatbot for Document Q&A and Statistical Analysis");
      Shown (UiWarning "Please enter your Gemini API Key to proceed.")]) /\
  calls_of (snd (main E inp st)) = [].
Proof.
  intros Hkey. rewrite (main_early_return E inp st Hkey). split; reflexivity.
Qed.

End Key.

Lemma empty_key_returns_early_witness :
  main (mock no_faults) (without_key (visit (Some notes) true true "why?"))
    (fresh no_faults)
  = (Ok tt,
     {| world := world (fresh no_faults);
        session := with_defaults (session (fresh no_faults)) |},
     [Shown (UiTitle "Chatbot for Document Q&A and Statistical Analysis");
      Shown (UiWarning "Please enter your Gemini API Key to proceed.")]) /\
  calls_of (snd (main (mock no_faults)
                   (without_key (visit (Some notes) true true "why?"))
                   (fresh no_faults))) = [].
Proof.
  apply (empty_key_returns_early (mock no_faults)). reflexivity.
Defined.

(** ** Write-once document content *)

Section WriteOnce.

Variable E : Env.

(** C8.  Once the stored document content is a non-empty string, no
    sequence of runs changes it, whatever is uploaded and whatever the
    runs do otherwise; in these runs no summarization request is made and
    no summary is displayed. *)
Theorem document_content_write_once
    (inps : list Interaction) (st : State E) (d : string) :
  document_content (session st) = Some d ->
  nonempty d = true ->
  document_content (session (fst (run_session E inps st))) = Some d /\
  count OpSummarize (snd (run_session E inps st)) = 0 /\
  ~ In (Shown (UiSubheader "Document Summary:")) (snd (run_session E inps st)).
Proof. apply run_session_keeps_document. Qed.

Lemma get_file_content_other (f : UploadedFile) :
  str_in "text" (type f) || str_in "markdown" (type f) = false ->
  str_in "pdf" (type f) = false ->
  get_file_content E f = Ok unsupported.
Proof. unfold get_file_content. now intros -> ->. Qed.

(** C9.  When a file whose MIME type contains none of "text", "markdown"
    and "pdf" is uploaded while the stored document content is empty (key
    filled, credentials parsed), the string "Unsupported file type." is
    stored as the document content and shown as an error.  The same run
    goes on to the analysis, quiz and chat part: the question box is
    shown, and every request of the run is built from that string.  Every
    later run keeps the string as the document content, whatever is
    uploaded, builds its requests from it, and shows the question box
    whenever the key is filled and the credentials parse. *)
Theorem unsupported_marker_is_kept (inp : Interaction) (st : State E)
    (f : UploadedFile) r st' evs :
  nonempty (in_gemini_api_key inp) = true ->
  (forall cf, in_credentials_file inp = Some cf ->
              exists j, json_load E (getvalue cf) = Ok j) ->
  in_uploaded_file inp = Some f ->
  str_in "text" (type f) || str_in "markdown" (type f) = false ->
  str_in "pdf" (type f) = false ->
  document_content (with_defaults (session st)) = Some "" ->
  main E inp st = (r, st', evs) ->
  document_content (session st') = Some unsupported /\
  In (Shown (UiError unsupported)) evs /\
  In chat_box evs /\
  Forall (about unsupported (in_user_question inp)) evs /\
  (forall inps,
     document_content (session (fst (run_session E inps st'))) = Some unsupported) /\
  (forall inp2 r2 st2 evs2,
     main E inp2 st' = (r2, st2, evs2) ->
     document_content (session st2) = Some unsupported /\
     Forall (about unsupported (in_user_question inp2)) evs2 /\
     (nonempty (in_gemini_api_key inp2) = true ->
      (forall cf, in_credentials_file inp2 = Some cf ->
                  exists j, json_load E (getvalue cf) = Ok j) ->
      In chat_box evs2)).
Proof.
  intros Hkey Hjson Hfile Htext Hpdf Hempty Hmain.
  pose proof (get_file_content_other f Htext Hpdf) as Hcontent.
  destruct (main_ran E inp st r st' evs Hkey Hmain) as (evs' & -> & Hran).
  pose proof (keyed_initialised E inp st) as Hinit0.
  destruct (ran_tail E inp _ _ _ _ Hinit0 Hran)
    as [(e & st1 & ev1 & Hload)
       | (st1 & ev1 & r2 & st2 & ev2 & tail & Hload & Hup & -> & Htail)];
    destruct (load_credentials_run _ _ _ _ _ _ Hinit0 Hload)
      as (_ & Hinit1 & _ & _ & Hdoc1 & _ & Habout1 & Hres1).
  { destruct Hres1 as [? | (cf & e' & Hcf & Hraise & _)]; [discriminate|].
    destruct (Hjson cf Hcf) as [j Hj]. congruence. }
  rewrite keyed_document, Hempty in Hdoc1.
  destruct (process_upload_fresh E inp st1 f unsupported r2 st2 ev2
              Hinit1 Hdoc1 Hfile Hcontent Hup)
    as (-> & Hdoc2 & Hmarker & _).
  rewrite (Hmarker eq_refl).
  destruct (Htail eq_refl) as (Hdoc' & _ & Hd).
  destruct (Hd unsupported Hdoc2) as (Habout & Hbox).
  assert (Hstored : document_content (session st') = Some unsupported) by congruence.
  split; [exact Hstored|].
  split; [rewrite !in_app_iff; right; right; left; now left|].
  split; [rewrite !in_app_iff; right; right; right; now apply Hbox|].
  split.
  { rewrite !Forall_app. repeat split; auto using about_header.
    repeat constructor. }
  split.
  - intros inps.
    now apply (run_session_keeps_document E inps st' unsupported Hstored).
  - intros inp2 r2 st2' evs2 Hmain2.
    destruct (main_with_document E inp2 st' unsupported r2 st2' evs2
                Hstored eq_refl Hmain2) as (Hdoc3 & _ & Habout3 & Hbox3).
    auto.
Qed.

End WriteOnce.

Lemma document_content_write_once_witness :
  document_content
    (session (fst (run_session (mock no_faults)
                     [visit (Some picture) true false "why?";
                      visit (Some notes) false true ""]
                     (loaded no_faults)))) = Some "hi" /\
  count OpSummarize
    (snd (run_session (mock no_faults)
            [visit (Some picture) true false "why?";
             visit (Some notes) false true ""]
            (loaded no_faults))) = 0 /\
  ~ In (Shown (UiSubheader "Document Summary:"))
      (snd (run_session (mock no_faults)
              [visit (Some picture) true false "why?";
               visit (Some notes) false true ""]
              (loaded no_faults))).
Proof.
  apply (document_content_write_once (mock no_faults)); reflexivity.
Defined.

Lemma unsupported_marker_is_kept_witness :
  document_content
    (session (snd (fst (main (mock no_faults)
                          (visit (Some picture) true false "why?")
                          (fresh no_faults))))) = Some unsupported /\
  In chat_box (snd (main (mock no_faults)
                      (visit (Some picture) true false "why?")
                      (fresh no_faults))).
Proof.
  set (x := main (mock no_faults) (visit (Some picture) true false "why?")
              (fresh no_faults)).
  assert (Hx : x = (fst (fst x), snd (fst x), snd x)) by reflexivity.
  assert (Hjson : forall cf,
             in_credentials_file (visit (Some picture) true false "why?") = Some cf ->
             exists j, json_load (mock no_faults) (getvalue cf) = Ok j)
    by (intros cf _; eexists; reflexivity).
  destruct (unsupported_marker_is_kept (mock no_faults)
              (visit (Some picture) true false "why?") (fresh no_faults) picture
              _ _ _ eq_refl Hjson eq_refl eq_refl eq_refl eq_refl Hx)
    as (Hdoc & _ & Hbox & _).
  split; assumption.
Defined.

(** ** Logging to the spreadsheet *)

Section Logging.

Variable E : Env.

(** When the analysis request returned, the spreadsheet is addressed
    exactly when the credentials are true, both names are filled in and
    a file is selected in the uploader. *)
Lemma analysis_logged_iff (inp : Interaction) (st : State E) r st' evs creds p t :
  initialised (session st) ->
  google_sheet_credentials (session st) = Some creds ->
  propose_analysis E inp st = (r, st', evs) ->
  In (Called (CGenerateContent p) (Responded (Ok t))) evs ->
  (count OpServiceAccount evs = 1 <->
   truthy creds && nonempty (in_google_sheet_name inp)
   && nonempty (in_analysis_worksheet_name inp) = true /\
   in_uploaded_file inp <> None) /\
  (count OpServiceAccount evs = 0 <-> count OpServiceAccount evs <> 1).
Proof.
  intros Hinit Hcreds. open_state st Hinit. simpl in Hcreds.
  injection Hcreds as ->.
  unfold propose_analysis, save_to_google_sheet. unfold_handler.
  run; intros [= <- <- <-]; unfold count; simpl;
    rewrite ?classify_analysis; simpl; intros Hin;
    repeat (destruct Hin as [Hin | Hin]; [try discriminate Hin |]);
    try contradiction;
    (split; split; try lia; try discriminate;
     try (intros _; split; [reflexivity | discriminate]);
     try (intros [? ?]; congruence)).
Qed.

End Logging.

(** C5, where the code departs from it.  The document is already stored
    and no file is selected any more; the analysis request returns, the
    credentials are true and both names are filled in, and yet no
    spreadsheet call is made: reading the name of the missing file on
    line 97 raises, and the handler reports it as a failure of the
    analysis. *)
Lemma analysis_not_logged_without_file :
  let st := loaded no_faults in
  let inp := visit None true false "" in
  let evs := snd (main (mock no_faults) inp st) in
  document_content (session st) = Some "hi" /\
  In (Called (CGenerateContent (analysis_prompt "hi")) (Responded (Ok "reply"))) evs /\
  nonempty (in_google_sheet_name inp) = true /\
  nonempty (in_analysis_worksheet_name inp) = true /\
  (exists creds, google_sheet_credentials
                   (session (snd (fst (main (mock no_faults) inp st)))) = Some creds /\
                 truthy creds = true) /\
  count OpServiceAccount evs = 0 /\
  count OpAppendRow evs = 0 /\
  In (Shown (UiError (error_text "Error generating statistical analysis proposals: "
                        (Exception "'NoneType' object has no attribute 'name'"))))
     evs.
Proof.
  cbv zeta. repeat split.
  - vm_compute. auto 10.
  - eexists. split; reflexivity.
  - vm_compute. auto 20.
Qed.

(** * Further properties of the handler *)

(** ** More facts about logs *)

Lemma answered_app (a b : list event) :
  answered a -> answered b -> answered (a ++ b)%list.
Proof. induction 1; simpl; intros; try (econstructor; eauto); auto. Qed.

Lemma answered_no_calls (evs : list event) : calls_of evs = [] -> answered evs.
Proof.
  induction evs as [|[c r|u] evs IH]; simpl; intro H.
  - constructor.
  - discriminate.
  - constructor; auto.
Qed.

Lemma Forall_no_calls (P : event -> Prop) (evs : list event) :
  (forall u, P (Shown u)) -> calls_of evs = [] -> Forall P evs.
Proof.
  intros HP. induction evs as [|[c r|u] evs IH]; simpl; intro H.
  - constructor.
  - discriminate.
  - constructor; auto.
Qed.

Lemma no_calls_not_in (c : call) (rep : reply) (evs : list event) :
  calls_of evs = [] -> ~ In (Called c rep) evs.
Proof.
  induction evs as [|[c' r'|u] evs IH]; simpl; intros H Hin.
  - exact Hin.
  - discriminate.
  - destruct Hin as [Hin | Hin]; [discriminate | exact (IH H Hin)].
Qed.

Lemma count_zero_not_in (c : call) (rep : reply) (evs : list event) :
  count (op_of c) evs = 0 -> ~ In (Called c rep) evs.
Proof.
  unfold count. intros Hzero Hin.
  assert (Hf : In (Called c rep) (filter (is_op (op_of c)) evs)).
  { apply filter_In. split; [exact Hin|]. simpl. apply Nat.eqb_refl. }
  destruct (filter (is_op (op_of c)) evs); [contradiction | discriminate].
Qed.

Lemma all_counts_zero (evs : list event) :
  (forall o, count o evs = 0) -> calls_of evs = [].
Proof.
  induction evs as [|[c r|u] evs IH]; intros Hzero.
  - reflexivity.
  - exfalso. apply (count_zero_not_in c r (Called c r :: evs) (Hzero _)).
    now left.
  - simpl. apply IH. intros o. exact (Hzero o).
Qed.

Ltac forall_leaf :=
  repeat (apply Forall_cons; [simpl; auto |]);
  first [ apply Forall_nil
        | apply Forall_no_calls; [intro; exact I | assumption] ].

Ltac answered_leaf :=
  repeat first
    [ apply answered_nil
    | eapply answered_response;
      [ rewrite ?classify_summarize, ?classify_analysis, ?classify_quiz;
        reflexivity |]
    | eapply answered_unreadable;
      [ rewrite ?classify_summarize, ?classify_analysis, ?classify_quiz;
        reflexivity
      | rewrite ?classify_summarize, ?classify_analysis, ?classify_quiz;
        reflexivity |]
    | apply answered_called; [reflexivity |]
    | apply answered_shown ];
  try (apply answered_no_calls; assumption).

Ltac in_leaf := simpl; repeat (first [left; reflexivity | right]).

(** A row found in the log of one execution path is the one built there. *)
Ltac row_leaf :=
  let d := fresh "d" in
  let row := fresh "row" in
  let rep := fresh "rep" in
  let Hin := fresh "Hin" in
  intros d row rep [= <-] Hin; simpl in Hin;
  repeat (destruct Hin as [Hin | Hin]; [try discriminate Hin |]);
  try contradiction;
  try (exfalso; eapply no_calls_not_in; eassumption);
  try (injection Hin as <- <-; unfold row_reports; do 2 eexists;
       split; [first [eassumption | reflexivity] |];
       first [ left; split; [reflexivity | in_leaf]
             | right; split; [reflexivity | in_leaf] ]).

(** ** The log of each part *)

Section PartLogs.

Variable E : Env.

Lemma propose_analysis_log (inp : Interaction) (st : State E) r st' evs :
  initialised (session st) ->
  propose_analysis E inp st = (r, st', evs) ->
  (forall k h, gemini_api_key (session st) = Some k -> Forall (set_up k h) evs) /\
  (forall d q, document_content (session st) = Some d ->
               Forall (built_from d q) evs) /\
  (forall c, google_sheet_credentials (session st) = Some c ->
             Forall (logged_to inp c) evs) /\
  answered evs /\
  (forall d row rep,
     document_content (session st) = Some d ->
     In (Called (CAppendRow row) rep) evs -> row_reports inp d evs row).
Proof.
  intros Hinit. open_state st Hinit.
  unfold propose_analysis, save_to_google_sheet. unfold_handler.
  run; intros [= <- <- <-].
  all: split; [intros ? ? [= <-]; forall_leaf |].
  all: split; [intros ? ? [= <-]; forall_leaf |].
  all: split; [intros ? [= <-]; forall_leaf |].
  all: split; [answered_leaf | row_leaf].
Qed.

Lemma generate_quiz_log (inp : Interaction) (st : State E) r st' evs :
  initialised (session st) ->
  generate_quiz E inp st = (r, st', evs) ->
  (forall k h, gemini_api_key (session st) = Some k -> Forall (set_up k h) evs) /\
  (forall d q, document_content (session st) = Some d ->
               Forall (built_from d q) evs) /\
  (forall c, Forall (logged_to inp c) evs) /\
  answered evs /\
  (forall row rep, ~ In (Called (CAppendRow row) rep) evs).
Proof.
  intros Hinit. open_state st Hinit.
  unfold generate_quiz. unfold_handler.
  run; intros [= <- <- <-].
  all: split; [intros ? ? [= <-]; forall_leaf |].
  all: split; [intros ? ? [= <-]; forall_leaf |].
  all: split; [intros ?; forall_leaf |].
  all: split; [answered_leaf |].
  all: intros row rep Hin; simpl in Hin;
    repeat (destruct Hin as [Hin | Hin]; [discriminate Hin |]); exact Hin.
Qed.

Lemma process_upload_log (inp : Interaction) (st : State E) r st' evs :
  initialised (session st) ->
  process_upload E inp st = (r, st', evs) ->
  (forall k h, gemini_api_key (session st) = Some k -> Forall (set_up k h) evs) /\
  (forall d q, document_content (session st') = Some d ->
               Forall (built_from d q) evs) /\
  (forall c, Forall (logged_to inp c) evs) /\
  answered evs /\
  Forall (fun ev => ev <> chat_box) evs /\
  (forall row rep, ~ In (Called (CAppendRow row) rep) evs).
Proof.
  intros Hinit. open_state st Hinit.
  unfold process_upload. unfold_handler.
  run; intros [= <- <- <-].
  all: split; [intros ? ? [= <-]; forall_leaf |].
  all: split; [intros ? ? [= <-]; forall_leaf |].
  all: split; [intros ?; forall_leaf |].
  all: split; [answered_leaf |].
  all: split; [repeat (constructor; try discriminate) |].
  all: intros row rep Hin; simpl in Hin;
    repeat (destruct Hin as [Hin | Hin]; [discriminate Hin |]); exact Hin.
Qed.

Lemma load_credentials_quiet (inp : Interaction) (st : State E) r st' evs :
  load_credentials E inp st = (r, st', evs) ->
  Forall (fun ev => ev <> chat_box) evs /\
  world st' = world st /\
  google_sheet_credentials (session st')
  = credentials_after E inp (google_sheet_credentials (session st)) /\
  (forall f e, in_credentials_file inp = Some f ->
               json_load E (getvalue f) = Raise e ->
               r = Raise e /\ st' = st /\ evs = []).
Proof.
  destruct st as [w s].
  unfold credentials_after, load_credentials. unfold_handler.
  run; intros [= <- <- <-].
  all: split; [repeat (constructor; try discriminate) |].
  all: split; [reflexivity |]. 
  all: split; [reflexivity |].
  all: intros f e' Hf Hj; try discriminate.
  all: injection Hf as <-; rewrite Hj in *; try discriminate.
  all: match goal with H : Raise _ = Raise _ |- _ => injection H as <- end.
  all: repeat split.
Qed.

Lemma show_messages_ok (messages : list Turn) (st st' : State E) evs :
  show_messages messages st = (Ok tt, st', evs) ->
  evs = map shown_turn messages.
Proof.
  revert evs. induction messages as [|m rest IH]; simpl; intros evs.
  - unfold ret. now intros [= <- <-].
  - unfold_handler. unfold index, shown_turn.
    destruct (parts m) as [|p ps]; simpl; [discriminate|].
    destruct (show_messages rest st) as [[r1 st1] ev1] eqn:Hrest.
    destruct r1 as [[]|e]; intros [= <- <-].
    f_equal. now apply IH.
Qed.

Lemma ends_cons {A : Type} (x : A) (rest tail : list A) :
  (exists before, rest = (before ++ tail)%list) ->
  exists before, x :: rest = (before ++ tail)%list.
Proof. intros [before ->]. now exists (x :: before). Qed.

Lemma chat_log_more (inp : Interaction) (st : State E) r st' evs :
  initialised (session st) ->
  chat E inp st = (r, st', evs) ->
  (forall k, gemini_api_key (session st) = Some k ->
             Forall (set_up k (history_of (session st))) evs) /\
  (forall d, document_content (session st) = Some d ->
             Forall (built_from d (in_user_question inp)) evs) /\
  (forall c, google_sheet_credentials (session st) = Some c ->
             Forall (logged_to inp c) evs) /\
  answered evs /\
  (forall d row rep,
     document_content (session st) = Some d ->
     In (Called (CAppendRow row) rep) evs -> row_reports inp d evs row).
Proof.
  intros Hinit. open_state st Hinit.
  unfold chat, save_to_google_sheet. unfold_handler.
  run; intros [= <- <- <-];
    try match goal with
        | H : show_messages _ _ = (_, _, _) |- _ =>
            destruct (show_messages_run _ _ _ _ _ _ H) as (-> & Hcalls & _ & _);
            clear H
        end.
  all: split; [intros ? [= <-]; forall_leaf |].
  all: split; [intros ? [= <-]; forall_leaf |].
  all: split; [intros ? [= <-]; forall_leaf |].
  all: split; [answered_leaf | row_leaf].
Qed.

Lemma chat_display (inp : Interaction) (st : State E) st' evs :
  initialised (session st) ->
  chat E inp st = (Ok tt, st', evs) ->
  if nonempty (in_user_question inp)
  then exists before,
         evs = (before ++ map shown_turn (history_of (session st')))%list
  else evs = [chat_box] /\ st' = st.
Proof.
  intros Hinit. open_state st Hinit.
  unfold chat, save_to_google_sheet. unfold_handler.
  run; intros Heq; inversion Heq; subst; clear Heq;
    try match goal with
        | H : show_messages _ _ = (_, _, _) |- _ =>
            destruct (show_messages_run _ _ _ _ _ _ H) as (Hst & _);
            pose proof (show_messages_ok _ _ _ _ H) as Hevs;
            subst; clear H
        end;
    simpl;
    first [ split; reflexivity
          | repeat (first [exists []; reflexivity | apply ends_cons]) ].
Qed.

End PartLogs.

(** ** The log of a whole run *)

Lemma row_reports_mono (inp : Interaction) (d : string) (a b : list event)
    (row : list string) :
  (forall ev, In ev a -> In ev b) ->
  row_reports inp d a row -> row_reports inp d b row.
Proof.
  intros Hsub (f & t & Hf & [[Hrow Hin] | [Hrow Hin]]); exists f, t;
    (split; [exact Hf|]); [left | right]; auto.
Qed.

Lemma calls_of_app (a b : list event) :
  calls_of (a ++ b)%list = (calls_of a ++ calls_of b)%list.
Proof.
  induction a as [|[c r|u] a IH]; simpl; auto. now rewrite IH.
Qed.

Section RunLogs.

Variable E : Env.

Lemma ran_log (inp : Interaction) (st0 : State E) k r st' evs :
  initialised (session st0) ->
  gemini_api_key (session st0) = Some k ->
  ran E inp st0 r st' evs ->
  Forall (set_up k (history_of (session st0))) evs /\
  answered evs /\
  forall d c,
    document_content (session st') = Some d ->
    google_sheet_credentials (session st') = Some c ->
    Forall (built_from d (in_user_question inp)) evs /\
    Forall (logged_to inp c) evs /\
    (forall row rep, In (Called (CAppendRow row) rep) evs ->
                     row_reports inp d evs row).
Proof.
  intros Hinit0 Hkey0 Hran.
  destruct Hran as
    [ e st1 ev1 Hload
    | st1 ev1 e st2 ev2 Hload Hup
    | st1 ev1 st2 ev2 Hload Hup Hdoc2
    | st1 ev1 st2 ev2 d2 st3 ev3 st4 ev4 r st5 ev5
        Hload Hup Hdoc2 Hd2 Hprop Hquiz Hchat ].
  all: destruct (load_credentials_run _ _ _ _ _ _ Hinit0 Hload)
         as (_ & Hinit1 & Hkey1 & Hhist1 & _ & Hcalls1 & _ & _).
  all: rewrite Hkey0 in Hkey1.
  all: assert (Hany1 : forall P : event -> Prop,
                  (forall u, P (Shown u)) -> Forall P ev1)
         by (intros P HP; now apply Forall_no_calls).
  all: pose proof (answered_no_calls _ Hcalls1) as Hans1.
  2-4: destruct (process_upload_run _ _ _ _ _ _ Hinit1 Hup)
         as (Hinit2 & Hkey2 & Hhist2 & Hcreds2 & _).
  2-4: destruct (process_upload_log _ _ _ _ _ _ Hinit1 Hup)
         as (Hset2 & Hbuilt2 & Hlog2 & Hans2 & _ & Hrow2).
  - split; [apply Hany1; intro; exact I|]. split; [exact Hans1|].
    intros d c _ _. repeat split; try (apply Hany1; intro; exact I).
    intros row rep Hin. now elim (no_calls_not_in _ _ _ Hcalls1 Hin).
  - split; [rewrite Forall_app; split;
            [apply Hany1; intro; exact I | now apply Hset2]|].
    split; [now apply answered_app|].
    intros d c Hd Hc. repeat split.
    + rewrite Forall_app. split; [apply Hany1; intro; exact I | now apply Hbuilt2].
    + rewrite Forall_app. split; [apply Hany1; intro; exact I | apply Hlog2].
    + intros row rep Hin. rewrite in_app_iff in Hin. destruct Hin as [Hin | Hin].
      * now elim (no_calls_not_in _ _ _ Hcalls1 Hin).
      * now elim (Hrow2 _ _ Hin).
  - split; [rewrite Forall_app; split;
            [apply Hany1; intro; exact I | now apply Hset2]|].
    split; [now apply answered_app|].
    intros d c Hd Hc. repeat split.
    + rewrite Forall_app. split; [apply Hany1; intro; exact I | now apply Hbuilt2].
    + rewrite Forall_app. split; [apply Hany1; intro; exact I | apply Hlog2].
    + intros row rep Hin. rewrite in_app_iff in Hin. destruct Hin as [Hin | Hin].
      * now elim (no_calls_not_in _ _ _ Hcalls1 Hin).
      * now elim (Hrow2 _ _ Hin).
  - destruct (propose_analysis_run _ _ _ _ _ _ Hinit2 Hprop) as (_ & Hs3 & _).
    assert (Hinit3 : initialised (session st3)) by now rewrite Hs3.
    destruct (generate_quiz_run _ _ _ _ _ _ Hinit3 Hquiz) as (_ & Hs4 & _).
    assert (Hinit4 : initialised (session st4)) by now rewrite Hs4.
    destruct (chat_frame _ _ _ _ _ _ Hinit4 Hchat)
      as (_ & _ & Hdoc5 & Hcreds5 & _).
    destruct (propose_analysis_log _ _ _ _ _ _ Hinit2 Hprop)
      as (Hset3 & Hbuilt3 & Hlog3 & Hans3 & Hrow3).
    destruct (generate_quiz_log _ _ _ _ _ _ Hinit3 Hquiz)
      as (Hset4 & Hbuilt4 & Hlog4 & Hans4 & Hrow4).
    destruct (chat_log_more _ _ _ _ _ _ Hinit4 Hchat)
      as (Hset5 & Hbuilt5 & Hlog5 & Hans5 & Hrow5).
    assert (Hk2 : gemini_api_key (session st2) = Some k) by congruence.
    assert (Hk3 : gemini_api_key (session st3) = Some k) by now rewrite Hs3.
    assert (Hk4 : gemini_api_key (session st4) = Some k) by now rewrite Hs4.
    assert (Hh4 : history_of (session st4) = history_of (session st0)).
    { unfold history_of. now rewrite Hs4, Hs3, Hhist2, Hhist1. }
    assert (Hd3 : document_content (session st3) = Some d2) by now rewrite Hs3.
    assert (Hd4 : document_content (session st4) = Some d2) by now rewrite Hs4.
    split.
    { rewrite !Forall_app. repeat split;
        [apply Hany1; intro; exact I | now apply Hset2 | now apply Hset3
        | now apply Hset4 | rewrite <- Hh4; now apply Hset5]. }
    split; [repeat (apply answered_app; auto)|].
    intros d c Hd Hc.
    assert (d = d2) by congruence. subst d.
    assert (Hc4 : google_sheet_credentials (session st4) = Some c) by congruence.
    assert (Hc2 : google_sheet_credentials (session st2) = Some c)
      by (rewrite <- Hs3, <- Hs4; exact Hc4).
    repeat split.
    + rewrite !Forall_app. repeat split;
        [apply Hany1; intro; exact I | now apply Hbuilt2 | now apply Hbuilt3
        | now apply Hbuilt4 | now apply Hbuilt5].
    + rewrite !Forall_app. repeat split;
        [apply Hany1; intro; exact I | apply Hlog2 | now apply Hlog3
        | apply Hlog4 | now apply Hlog5].
    + intros row rep Hin. rewrite !in_app_iff in Hin.
      destruct Hin as [Hin | [Hin | [Hin | [Hin | Hin]]]].
      * now elim (no_calls_not_in _ _ _ Hcalls1 Hin).
      * now elim (Hrow2 _ _ Hin).
      * apply (row_reports_mono inp d2 ev3); [|now apply (Hrow3 d2 row rep)].
        intros ev Hev. rewrite !in_app_iff. auto.
      * now elim (Hrow4 _ _ Hin).
      * apply (row_reports_mono inp d2 ev5); [|now apply (Hrow5 d2 row rep)].
        intros ev Hev. rewrite !in_app_iff. auto 6.
Qed.

End RunLogs.

Section WholeRun.

Variable E : Env.

Lemma main_initialised (inp : Interaction) (st : State E) r st' evs :
  main E inp st = (r, st', evs) ->
  initialised (session st') /\
  gemini_api_key (session st')
  = (if nonempty (in_gemini_api_key inp)
     then Some (in_gemini_api_key inp)
     else gemini_api_key (with_defaults (session st))).
Proof.
  intros Hmain.
  destruct (nonempty (in_gemini_api_key inp)) eqn:Hkey.
  - destruct (main_ran E inp st r st' evs Hkey Hmain) as (evs' & -> & Hran).
    destruct (ran_facts E inp _ _ _ _ (keyed_initialised E inp st) Hran)
      as (Hinit & Hk & _).
    split; [exact Hinit | exact Hk].
  - rewrite (main_early_return E inp st Hkey) in Hmain.
    injection Hmain as <- <- <-. split; [|reflexivity].
    destruct (session st) as [[k|] [h|] [d|] [c|]]; unfold initialised; simpl;
      repeat split; discriminate.
Qed.

Lemma main_log (inp : Interaction) (st : State E) r st' evs :
  main E inp st = (r, st', evs) ->
  Forall (set_up (in_gemini_api_key inp) (history_of (session st))) evs /\
  answered evs /\
  forall d c,
    document_content (session st') = Some d ->
    google_sheet_credentials (session st') = Some c ->
    Forall (built_from d (in_user_question inp)) evs /\
    Forall (logged_to inp c) evs /\
    (forall row rep, In (Called (CAppendRow row) rep) evs ->
                     row_reports inp d evs row).
Proof.
  intros Hmain.
  destruct (nonempty (in_gemini_api_key inp)) eqn:Hkey.
  - destruct (main_ran E inp st r st' evs Hkey Hmain) as (evs' & -> & Hran).
    destruct (ran_log E inp (keyed E inp st) (in_gemini_api_key inp) r st' evs'
                (keyed_initialised E inp st) eq_refl Hran)
      as (Hset & Hans & Hrest).
    change (history_of (session (keyed E inp st)))
      with (history_of (with_defaults (session st))) in Hset.
    rewrite history_of_with_defaults in Hset.
    split; [rewrite Forall_app; split; [repeat constructor | exact Hset]|].
    split; [apply answered_app; [repeat constructor | exact Hans]|].
    intros d c Hd Hc. destruct (Hrest d c Hd Hc) as (Hbuilt & Hlog & Hrow).
    repeat split.
    + rewrite Forall_app. split; [repeat constructor | exact Hbuilt].
    + rewrite Forall_app. split; [repeat constructor | exact Hlog].
    + intros row rep Hin. rewrite in_app_iff in Hin.
      destruct Hin as [Hin | Hin].
      * simpl in Hin. repeat (destruct Hin as [Hin | Hin]; [discriminate Hin|]).
        contradiction.
      * apply (row_reports_mono inp d evs'); [|now apply (Hrow row rep)].
        intros ev Hev. rewrite in_app_iff. now right.
  - rewrite (main_early_return E inp st Hkey) in Hmain.
    injection Hmain as <- <- <-.
    split; [repeat constructor|]. split; [repeat constructor|].
    intros d c _ _. repeat split; try (repeat constructor).
    intros row rep Hin. simpl in Hin.
    repeat (destruct Hin as [Hin | Hin]; [discriminate Hin|]). contradiction.
Qed.

(** X1.  In every run the SDK is configured with the key typed in that run,
    the model built is gemini-pro, and a chat session is started with the
    history stored before the run. *)
Theorem sdk_is_set_up_from_this_run (inp : Interaction) (st : State E) r st' evs :
  main E inp st = (r, st', evs) ->
  Forall (set_up (in_gemini_api_key inp) (history_of (session st))) evs.
Proof. intros Hmain. exact (proj1 (main_log inp st r st' evs Hmain)). Qed.

(** X2.  Every request of a run is one of the four f-strings over the document
    content stored at the end of the run, and every chat message carries
    the question of the question box. *)
Theorem requests_are_built_from_the_document
    (inp : Interaction) (st : State E) r st' evs d :
  main E inp st = (r, st', evs) ->
  document_content (session st') = Some d ->
  Forall (built_from d (in_user_question inp)) evs.
Proof.
  intros Hmain Hd.
  destruct (main_initialised inp st r st' evs Hmain) as (Hinit & _).
  destruct (initialised_fields _ Hinit) as (k & h & d' & c & Hs).
  destruct (main_log inp st r st' evs Hmain) as (_ & _ & Hrest).
  apply (Hrest d c Hd). rewrite Hs. reflexivity.
Qed.

(** X3.  No response of [generate_content] is dropped silently: each call
    that returned is directly followed by the heading of its kind (line
    79, 94 or 106) and then by the response text or, when reading
    [response.text] raises (line 80, 95 or 107), by the message of the
    handler of that part with the text of the exception. *)
Theorem responses_are_displayed (inp : Interaction) (st : State E) r st' evs :
  main E inp st = (r, st', evs) -> answered evs.
Proof.
  intros Hmain. exact (proj1 (proj2 (main_log inp st r st' evs Hmain))).
Qed.

(** X4.  What is logged is what was received: every spreadsheet step uses the
    stored credentials, the sheet name and one of the two worksheet names
    of the sidebar, and every appended row is the name of the selected
    file with either "Analysis Proposal" and the proposal received in
    this run, or the question and the answer received in this run. *)
Theorem rows_report_what_was_received
    (inp : Interaction) (st : State E) r st' evs d c :
  main E inp st = (r, st', evs) ->
  document_content (session st') = Some d ->
  google_sheet_credentials (session st') = Some c ->
  Forall (logged_to inp c) evs /\
  (forall row rep, In (Called (CAppendRow row) rep) evs ->
                   row_reports inp d evs row).
Proof.
  intros Hmain Hd Hc.
  destruct (main_log inp st r st' evs Hmain) as (_ & _ & Hrest).
  exact (proj2 (Hrest d c Hd Hc)).
Qed.

(** X5.  After any run the four session fields are present; the stored key is
    the key typed in the run, or the earlier one when the field was left
    empty. *)
Theorem session_fields_after_run (inp : Interaction) (st : State E) r st' evs :
  main E inp st = (r, st', evs) ->
  initialised (session st') /\
  gemini_api_key (session st')
  = (if nonempty (in_gemini_api_key inp)
     then Some (in_gemini_api_key inp)
     else gemini_api_key (with_defaults (session st))).
Proof. apply main_initialised. Qed.

End WholeRun.

(** ** Credentials, uploads and reruns *)

Section Reruns.

Variable E : Env.

(** X6.  With the key filled in, the credentials stored after a run are the
    parsed content of the credentials file of that run, or the ones
    stored before when no file is given.  A file that does not parse ends
    the run at once: the exception of [json.load] is the outcome, nothing
    was called and nothing after line 60 was shown or stored. *)
Theorem credentials_are_replaced_or_kept
    (inp : Interaction) (st : State E) r st' evs :
  nonempty (in_gemini_api_key inp) = true ->
  main E inp st = (r, st', evs) ->
  google_sheet_credentials (session st')
  = credentials_after E inp (google_sheet_credentials (with_defaults (session st))) /\
  (forall f e, in_credentials_file inp = Some f ->
               json_load E (getvalue f) = Raise e ->
               r = Raise e /\ st' = keyed E inp st /\ evs = header).
Proof.
  intros Hkey Hmain.
  destruct (main_ran E inp st r st' evs Hkey Hmain) as (evs' & -> & Hran).
  pose proof (keyed_initialised E inp st) as Hinit0.
  destruct Hran as
    [ e st1 ev1 Hload
    | st1 ev1 e st2 ev2 Hload Hup
    | st1 ev1 st2 ev2 Hload Hup Hdoc2
    | st1 ev1 st2 ev2 d2 st3 ev3 st4 ev4 r st5 ev5
        Hload Hup Hdoc2 Hd2 Hprop Hquiz Hchat ].
  all: destruct (load_credentials_run _ _ _ _ _ _ Hinit0 Hload) as (_ & Hinit1 & _).
  all: destruct (load_credentials_quiet _ _ _ _ _ _ Hload)
         as (_ & _ & Hcreds1 & Hbad).
  all: change (google_sheet_credentials (session (keyed E inp st)))
         with (google_sheet_credentials (with_defaults (session st))) in Hcreds1.
  2-4: destruct (process_upload_run _ _ _ _ _ _ Hinit1 Hup)
         as (Hinit2 & _ & _ & Hcreds2 & _).
  - split; [exact Hcreds1|]. intros f e' Hf Hj.
    destruct (Hbad f e' Hf Hj) as (Hr & -> & ->).
    now rewrite app_nil_r.
  - split; [congruence|]. intros f e' Hf Hj.
    destruct (Hbad f e' Hf Hj) as (Hr & _). discriminate.
  - split; [congruence|]. intros f e' Hf Hj.
    destruct (Hbad f e' Hf Hj) as (Hr & _). discriminate.
  - destruct (propose_analysis_run _ _ _ _ _ _ Hinit2 Hprop) as (_ & Hs3 & _).
    assert (Hinit3 : initialised (session st3)) by now rewrite Hs3.
    destruct (generate_quiz_run _ _ _ _ _ _ Hinit3 Hquiz) as (_ & Hs4 & _).
    assert (Hinit4 : initialised (session st4)) by now rewrite Hs4.
    destruct (chat_frame _ _ _ _ _ _ Hinit4 Hchat) as (_ & _ & _ & Hcreds5 & _).
    split; [rewrite Hcreds5, Hs4, Hs3; congruence|].
    intros f e' Hf Hj. destruct (Hbad f e' Hf Hj) as (Hr & _). discriminate.
Qed.

(** X7.  A summarization request is made only in a run with the key filled in
    in which a file is uploaded while the stored document content is
    empty. *)
Theorem summarization_needs_fresh_upload
    (inp : Interaction) (st : State E) r st' evs :
  main E inp st = (r, st', evs) ->
  count OpSummarize evs <> 0 ->
  nonempty (in_gemini_api_key inp) = true /\
  document_content (with_defaults (session st)) = Some "" /\
  exists f, in_uploaded_file inp = Some f.
Proof.
  intros Hmain Hcount.
  destruct (nonempty (in_gemini_api_key inp)) eqn:Hkey.
  2: { rewrite (main_early_return E inp st Hkey) in Hmain.
       injection Hmain as <- <- <-. now elim Hcount. }
  split; [reflexivity|].
  destruct (document_content (with_defaults (session st))) as [d|] eqn:Hd.
  2: { simpl in Hd. destruct (document_content (session st)); discriminate. }
  destruct (nonempty d) eqn:Hne.
  { exfalso. apply Hcount.
    destruct (document_content (session st)) as [d0|] eqn:Hd0.
    - simpl in Hd. rewrite Hd0 in Hd. injection Hd as ->.
      now destruct (main_with_document E inp st d r st' evs Hd0 Hne Hmain)
        as (_ & Hzero & _).
    - simpl in Hd. rewrite Hd0 in Hd. injection Hd as <-. discriminate. }
  destruct d; [|discriminate]. split; [reflexivity|].
  destruct (in_uploaded_file inp) as [f|] eqn:Hfile; [now exists f|].
  exfalso. apply Hcount.
  destruct (main_ran E inp st r st' evs Hkey Hmain) as (evs' & -> & Hran).
  pose proof (keyed_initialised E inp st) as Hinit0.
  destruct Hran as
    [ e st1 ev1 Hload
    | st1 ev1 e st2 ev2 Hload Hup
    | st1 ev1 st2 ev2 Hload Hup Hdoc2
    | st1 ev1 st2 ev2 d2 st3 ev3 st4 ev4 r st5 ev5
        Hload Hup Hdoc2 Hd2 Hprop Hquiz Hchat ].
  all: destruct (load_credentials_run _ _ _ _ _ _ Hinit0 Hload)
         as (_ & Hinit1 & _ & _ & Hdoc1 & Hcalls1 & _).
  all: rewrite keyed_document, Hd in Hdoc1.
  2-4: rewrite (process_upload_skip E inp st1 "" Hdoc1 (or_intror Hfile)) in Hup.
  - rewrite count_app. now rewrite (count_no_calls _ _ Hcalls1).
  - discriminate.
  - injection Hup as <- <-.
    rewrite !count_app, (count_no_calls _ _ Hcalls1). reflexivity.
  - injection Hup as <- <-. rewrite Hdoc1 in Hdoc2. injection Hdoc2 as <-.
    discriminate.
Qed.

(** X8.  With a document stored, no button clicked and an empty question box,
    a run calls nothing and keeps the document and the chat history. *)
Theorem idle_rerun_calls_nothing (inp : Interaction) (st : State E) d r st' evs :
  document_content (session st) = Some d ->
  nonempty d = true ->
  in_propose_clicked inp = false ->
  in_quiz_clicked inp = false ->
  nonempty (in_user_question inp) = false ->
  main E inp st = (r, st', evs) ->
  calls_of evs = [] /\
  document_content (session st') = Some d /\
  history_of (session st') = history_of (session st).
Proof.
  intros Hdoc Hd Hp Hq Hu Hmain.
  destruct (main_with_document E inp st d r st' evs Hdoc Hd Hmain) as (Hdoc' & _).
  assert (Hcalls : calls_of evs = []).
  { destruct (nonempty (in_gemini_api_key inp)) eqn:Hkey.
    2: { rewrite (main_early_return E inp st Hkey) in Hmain.
         now injection Hmain as <- <- <-. }
    destruct (main_ran E inp st r st' evs Hkey Hmain) as (evs' & -> & Hran).
    pose proof (keyed_initialised E inp st) as Hinit0.
    assert (Hdoc0 : document_content (session (keyed E inp st)) = Some d).
    { rewrite keyed_document. now apply with_defaults_document. }
    destruct Hran as
      [ e st1 ev1 Hload
      | st1 ev1 e st2 ev2 Hload Hup
      | st1 ev1 st2 ev2 Hload Hup Hdoc2
      | st1 ev1 st2 ev2 d2 st3 ev3 st4 ev4 r st5 ev5
          Hload Hup Hdoc2 Hd2 Hprop Hquiz Hchat ].
    all: destruct (load_credentials_run _ _ _ _ _ _ Hinit0 Hload)
           as (_ & Hinit1 & _ & _ & Hdoc1 & Hcalls1 & _).
    all: rewrite Hdoc0 in Hdoc1.
    2-4: rewrite (process_upload_skip E inp st1 d Hdoc1 (or_introl Hd)) in Hup.
    - rewrite calls_of_app. now rewrite Hcalls1.
    - discriminate.
    - injection Hup as <- <-. rewrite !calls_of_app, Hcalls1. reflexivity.
    - injection Hup as <- <-.
      destruct (propose_analysis_run _ _ _ _ _ _ Hinit1 Hprop)
        as (_ & Hs3 & _ & Hcount3 & _).
      assert (Hinit3 : initialised (session st3)) by now rewrite Hs3.
      destruct (generate_quiz_run _ _ _ _ _ _ Hinit3 Hquiz)
        as (_ & Hs4 & _ & Hcount4 & _).
      assert (Hinit4 : initialised (session st4)) by now rewrite Hs4.
      destruct (chat_log _ _ _ _ _ _ Hinit4 Hchat) as (Hcount5 & _).
      unfold propose_budget in Hcount3. rewrite Hp in Hcount3.
      unfold quiz_budget in Hcount4. rewrite Hq in Hcount4.
      unfold chat_budget in Hcount5. rewrite Hu in Hcount5.
      rewrite !calls_of_app, Hcalls1.
      rewrite (all_counts_zero ev3), (all_counts_zero ev4), (all_counts_zero ev5);
        [reflexivity | | |]; intros o;
        [specialize (Hcount5 o) | specialize (Hcount4 o) | specialize (Hcount3 o)];
        lia. }
  split; [exact Hcalls|]. split; [exact Hdoc'|].
  destruct (main_history E inp st r st' evs Hmain) as (Hhist & _).
  rewrite (answers_no_calls _ Hcalls) in Hhist. simpl in Hhist.
  now rewrite app_nil_r in Hhist.
Qed.

(** X9.  After a run that returns normally with a question in the box and a
    document stored, the page ends with the whole chat history: one chat
    message per stored turn, in order, with its role and first part. *)
Theorem history_is_displayed (inp : Interaction) (st : State E) st' evs d :
  main E inp st = (Ok tt, st', evs) ->
  nonempty (in_gemini_api_key inp) = true ->
  nonempty (in_user_question inp) = true ->
  document_content (session st') = Some d ->
  nonempty d = true ->
  exists before,
    evs = (before ++ map shown_turn (history_of (session st')))%list.
Proof.
  intros Hmain Hkey Hq Hdoc Hd.
  destruct (main_ran E inp st _ st' evs Hkey Hmain) as (evs' & -> & Hran).
  pose proof (keyed_initialised E inp st) as Hinit0.
  inversion Hran as
    [ e st1 ev1 Hload
    | st1 ev1 e st2 ev2 Hload Hup
    | st1 ev1 st2 ev2 Hload Hup Hdoc2
    | st1 ev1 st2 ev2 d2 st3 ev3 st4 ev4 r5 st5 ev5
        Hload Hup Hdoc2 Hd2 Hprop Hquiz Hchat ]; subst.
  - rewrite Hdoc2 in Hdoc. injection Hdoc as <-. discriminate.
  - destruct (load_credentials_run _ _ _ _ _ _ Hinit0 Hload) as (_ & Hinit1 & _).
    destruct (process_upload_run _ _ _ _ _ _ Hinit1 Hup) as (Hinit2 & _).
    destruct (propose_analysis_run _ _ _ _ _ _ Hinit2 Hprop) as (_ & Hs3 & _).
    assert (Hinit3 : initialised (session st3)) by now rewrite Hs3.
    destruct (generate_quiz_run _ _ _ _ _ _ Hinit3 Hquiz) as (_ & Hs4 & _).
    assert (Hinit4 : initialised (session st4)) by now rewrite Hs4.
    pose proof (chat_display _ _ _ _ _ Hinit4 Hchat) as Hshow.
    rewrite Hq in Hshow. destruct Hshow as (before & ->).
    exists (header ++ ev1 ++ ev2 ++ ev3 ++ ev4 ++ before)%list.
    now rewrite <- !app_assoc.
Qed.

End Reruns.

(** ** The message loop *)

Section Messages.

Variable E : Env.

Lemma show_messages_cons (m : Turn) (rest : list Turn) (st : State E) p ps :
  parts m = p :: ps ->
  show_messages (m :: rest) st
  = (fst (fst (show_messages rest st)), snd (fst (show_messages rest st)),
     shown_turn m :: snd (show_messages rest st)).
Proof.
  intros Hp. simpl. unfold_handler. unfold index, shown_turn. rewrite Hp. simpl.
  destruct (show_messages rest st) as [[r1 st1] ev1]. now destruct r1.
Qed.

(** X10.  Lines 127-129 show one chat message per turn, in order, and change
    nothing.  A turn without parts stops the loop with the exception of
    [parts][0], after the turns before it have been shown. *)
Theorem show_messages_displays (messages : list Turn) (st : State E) :
  (Forall (fun t => parts t <> []) messages ->
   show_messages messages st = (Ok tt, st, map shown_turn messages)) /\
  (forall good bad rest,
     messages = (good ++ bad :: rest)%list ->
     Forall (fun t => parts t <> []) good ->
     parts bad = [] ->
     show_messages messages st
     = (Raise (Exception "list index out of range"), st, map shown_turn good)).
Proof.
  split.
  - induction 1 as [|m rest Hm Hrest IH]; [reflexivity|].
    destruct (parts m) as [|p ps] eqn:Hp; [congruence|].
    rewrite (show_messages_cons m rest st p ps Hp), IH. reflexivity.
  - intros good bad rest -> Hgood Hbad.
    induction Hgood as [|m good' Hm Hgood' IH].
    + simpl. unfold_handler. unfold index. rewrite Hbad. reflexivity.
    + destruct (parts m) as [|p ps] eqn:Hp; [congruence|].
      simpl app. rewrite (show_messages_cons m _ st p ps Hp), IH. reflexivity.
Qed.

End Messages.

Lemma show_messages_displays_witness :
  show_messages (E := mock no_faults) [user_turn "why?"; model_turn "answer"]
    (fresh no_faults)
  = (Ok tt, fresh no_faults,
     [Shown (UiChatMessage "user" "why?"); Shown (UiChatMessage "model" "answer")]) /\
  show_messages (E := mock no_faults)
    [user_turn "why?"; {| role := "model"; parts := [] |}; user_turn "and?"]
    (fresh no_faults)
  = (Raise (Exception "list index out of range"), fresh no_faults,
     [Shown (UiChatMessage "user" "why?")]).
Proof.
  split.
  - apply (proj1 (show_messages_displays (mock no_faults)
                    [user_turn "why?"; model_turn "answer"] (fresh no_faults))).
    repeat constructor; discriminate.
  - apply (proj2 (show_messages_displays (mock no_faults)
                    [user_turn "why?"; {| role := "model"; parts := [] |};
                     user_turn "and?"] (fresh no_faults))
             [user_turn "why?"] {| role := "model"; parts := [] |}
             [user_turn "and?"]).
    + reflexivity.
    + repeat constructor; discriminate.
    + reflexivity.
Defined.

(** ** Parts that cannot fail, and the condition for logging *)

Section Isolation.

Variable E : Env.

(** X12.  The analysis part and the quiz part return normally whatever the SDK
    does, leave the session state as it is, and end every failed call
    with the handler's message: a failure there never keeps the rest of
    the page from running. *)
Theorem analysis_and_quiz_never_raise (inp : Interaction) (st : State E) r st' evs :
  initialised (session st) ->
  propose_analysis E inp st = (r, st', evs) \/
  generate_quiz E inp st = (r, st', evs) ->
  r = Ok tt /\ session st' = session st /\ caught evs.
Proof.
  intros Hinit [Hrun | Hrun].
  - destruct (propose_analysis_run _ _ _ _ _ _ Hinit Hrun) as (Hr & Hs & Hc & _).
    auto.
  - destruct (generate_quiz_run _ _ _ _ _ _ Hinit Hrun) as (Hr & Hs & Hc & _).
    auto.
Qed.

(** X13.  In the chat part, once [send_message] has returned a response
    whose text can be read, the spreadsheet is addressed exactly when the
    stored credentials are true, the sheet name and the questions
    worksheet name are filled in and a file is selected in the uploader;
    it is addressed at most once.  When the text cannot be read, or
    [send_message] raised or was not called, it is not addressed. *)
Theorem chat_logged_iff (inp : Interaction) (st : State E) r st' evs creds :
  initialised (session st) ->
  google_sheet_credentials (session st) = Some creds ->
  chat E inp st = (r, st', evs) ->
  ((exists m t, In (Called (CSendMessage m) (Responded (Ok t))) evs) ->
   (count OpServiceAccount evs = 1 <->
    truthy creds && nonempty (in_google_sheet_name inp)
    && nonempty (in_questions_worksheet_name inp) = true /\
    in_uploaded_file inp <> None)) /\
  ((forall m t, ~ In (Called (CSendMessage m) (Responded (Ok t))) evs) ->
   count OpServiceAccount evs = 0) /\
  count OpServiceAccount evs <= 1.
Proof.
  intros Hinit Hcreds. open_state st Hinit. simpl in Hcreds.
  injection Hcreds as ->.
  unfold chat, save_to_google_sheet. unfold_handler.
  run; intros [= <- <- <-];
    try match goal with
        | H : show_messages _ _ = (_, _, _) |- _ =>
            destruct (show_messages_run _ _ _ _ _ _ H) as (-> & Hcalls & _ & _);
            pose proof (count_no_calls OpServiceAccount _ Hcalls) as Hzero;
            clear H
        end;
    unfold count in *; simpl.
  all: split;
    [ intros (m & t & Hin); simpl in Hin;
      repeat (destruct Hin as [Hin | Hin]; [try discriminate Hin |]);
      try contradiction;
      try (exfalso; eapply no_calls_not_in; eassumption);
      (split; try lia; try discriminate;
       try (intros _; split; [reflexivity | discriminate]);
       try (intros [? ?]; congruence))
    | ].
  all: split; [| lia].
  all: intros Hnone; try lia.
  all: exfalso; eapply Hnone; simpl; auto 10.
Qed.

End Isolation.

(** ** A document without text *)

Section EmptyContent.

Variable E : Env.

Lemma process_upload_attempt (inp : Interaction) (st : State E) f content r st' evs :
  initialised (session st) ->
  document_content (session st) = Some "" ->
  in_uploaded_file inp = Some f ->
  get_file_content E f = Ok content ->
  content <> unsupported ->
  process_upload E inp st = (r, st', evs) ->
  count OpConfigure evs = 1 /\
  (setup_total E -> count OpSummarize evs = 1).
Proof.
  intros Hinit Hdoc Hfile Hcontent Hneq. open_state st Hinit.
  simpl in Hdoc. injection Hdoc as ->.
  unfold process_upload. unfold_handler. simpl.
  rewrite Hfile. simpl. rewrite Hcontent. simpl.
  destruct (String.eqb_spec content "Unsupported file type.") as [-> | _];
    [now elim Hneq|]. simpl.
  destruct (genai_configure E k w) as [[[]|e1] w1] eqn:Hconf; simpl.
  - destruct (GenerativeModel E "gemini-pro" w1) as [[m|e2] w2] eqn:Hmodel; simpl.
    + destruct (generate_content E m (summarize_prompt content) w2)
        as [[resp|e3] w3]; simpl;
        [destruct (text resp) as [t|e4]; simpl |];
        intros [= <- <- <-];
        (split; [reflexivity|]); intros _; unfold count; simpl;
        rewrite ?classify_summarize; reflexivity.
    + intros [= <- <- <-]. split; [reflexivity|].
      intros (_ & Hm & _). destruct (Hm "gemini-pro" w1) as [m' Hm'].
      rewrite Hmodel in Hm'. discriminate.
  - intros [= <- <- <-]. split; [reflexivity|].
    intros (Hc & _). specialize (Hc k w). rewrite Hconf in Hc. discriminate.
Qed.

Lemma main_empty_content (inp : Interaction) (st : State E) f r st' evs :
  nonempty (in_gemini_api_key inp) = true ->
  (forall cf, in_credentials_file inp = Some cf ->
              exists j, json_load E (getvalue cf) = Ok j) ->
  in_uploaded_file inp = Some f ->
  get_file_content E f = Ok "" ->
  document_content (with_defaults (session st)) = Some "" ->
  main E inp st = (r, st', evs) ->
  document_content (session st') = Some "" /\
  count OpConfigure evs = 1 /\
  (setup_total E -> count OpSummarize evs = 1) /\
  ~ In chat_box evs.
Proof.
  intros Hkey Hjson Hfile Hcontent Hempty Hmain.
  destruct (main_ran E inp st r st' evs Hkey Hmain) as (evs' & -> & Hran).
  pose proof (keyed_initialised E inp st) as Hinit0.
  assert (Hneq : "" <> unsupported) by discriminate.
  destruct Hran as
    [ e st1 ev1 Hload
    | st1 ev1 e st2 ev2 Hload Hup
    | st1 ev1 st2 ev2 Hload Hup Hdoc2
    | st1 ev1 st2 ev2 d2 st3 ev3 st4 ev4 r st5 ev5
        Hload Hup Hdoc2 Hd2 Hprop Hquiz Hchat ].
  all: destruct (load_credentials_run _ _ _ _ _ _ Hinit0 Hload)
         as (_ & Hinit1 & _ & _ & Hdoc1 & Hcalls1 & _ & Hres1).
  all: destruct (load_credentials_quiet _ _ _ _ _ _ Hload) as (Hquiet1 & _).
  all: rewrite keyed_document, Hempty in Hdoc1.
  2-4: destruct (process_upload_fresh E inp st1 f "" _ st2 ev2
                   Hinit1 Hdoc1 Hfile Hcontent Hup) as (Hr2 & Hstored & _).
  2-4: destruct (process_upload_attempt inp st1 f "" _ st2 ev2
                   Hinit1 Hdoc1 Hfile Hcontent Hneq Hup) as (Hconf2 & Hsum2).
  2-4: destruct (process_upload_log _ _ _ _ _ _ Hinit1 Hup)
         as (_ & _ & _ & _ & Hquiet2 & _).
  - destruct Hres1 as [? | (cf & e' & Hcf & Hraise & _)]; [discriminate|].
    destruct (Hjson cf Hcf) as [j Hj]. congruence.
  - discriminate.
  - split; [exact Hstored|].
    rewrite !count_app, !(count_no_calls _ _ Hcalls1).
    split; [exact Hconf2|]. split; [exact Hsum2|].
    rewrite !in_app_iff. intros [Hin | [Hin | Hin]].
    + simpl in Hin. repeat (destruct Hin as [Hin | Hin]; [discriminate Hin|]).
      contradiction.
    + rewrite Forall_forall in Hquiet1. now apply (Hquiet1 _ Hin).
    + rewrite Forall_forall in Hquiet2. now apply (Hquiet2 _ Hin).
  - rewrite Hstored in Hdoc2. injection Hdoc2 as <-. discriminate.
Qed.

(** X11.  A file whose extracted content is empty never fills the document
    slot: after any number of runs with the same widget values the stored
    content is still empty and the question box was never shown, while
    every one of these runs configured the SDK again (and sent the
    summarization request again, when model construction does not
    raise). *)
Theorem empty_content_is_summarized_again
    (inp : Interaction) (f : UploadedFile) (n : nat) (st : State E) :
  nonempty (in_gemini_api_key inp) = true ->
  (forall cf, in_credentials_file inp = Some cf ->
              exists j, json_load E (getvalue cf) = Ok j) ->
  in_uploaded_file inp = Some f ->
  get_file_content E f = Ok "" ->
  document_content (with_defaults (session st)) = Some "" ->
  document_content (with_defaults (session (fst (run_session E (repeat inp n) st))))
  = Some "" /\
  count OpConfigure (snd (run_session E (repeat inp n) st)) = n /\
  (setup_total E -> count OpSummarize (snd (run_session E (repeat inp n) st)) = n) /\
  ~ In chat_box (snd (run_session E (repeat inp n) st)).
Proof.
  intros Hkey Hjson Hfile Hcontent. revert st.
  induction n as [|n IH]; intros st Hempty; simpl.
  - repeat split; auto.
  - destruct (main E inp st) as [[r st1] ev1] eqn:Hmain.
    destruct (main_empty_content inp st f r st1 ev1
                Hkey Hjson Hfile Hcontent Hempty Hmain)
      as (Hdoc1 & Hconf1 & Hsum1 & Hbox1).
    assert (Hempty1 : document_content (with_defaults (session st1)) = Some "")
      by now apply with_defaults_document.
    destruct (IH st1 Hempty1) as (Hdoc & Hconf & Hsum & Hbox).
    destruct (run_session E (repeat inp n) st1) as [st2 ev2]. simpl in *.
    split; [exact Hdoc|]. rewrite !count_app.
    split; [lia|]. split.
    + intros Htotal. rewrite (Hsum1 Htotal), (Hsum Htotal). reflexivity.
    + rewrite in_app_iff. tauto.
Qed.

End EmptyContent.

(** ** The further properties at concrete runs *)

Lemma sdk_is_set_up_from_this_run_witness :
  Forall (set_up "secret" [])
    (snd (main (mock no_faults) (visit (Some notes) true true "why?")
            (loaded no_faults))).
Proof.
  set (x := main (mock no_faults) (visit (Some notes) true true "why?")
              (loaded no_faults)).
  assert (Hx : x = (fst (fst x), snd (fst x), snd x)) by reflexivity.
  exact (sdk_is_set_up_from_this_run (mock no_faults) _ _ _ _ _ Hx).
Defined.

Lemma requests_are_built_from_the_document_witness :
  Forall (built_from "hi" "why?")
    (snd (main (mock no_faults) (visit (Some notes) true true "why?")
            (loaded no_faults))).
Proof.
  set (x := main (mock no_faults) (visit (Some notes) true true "why?")
              (loaded no_faults)).
  assert (Hx : x = (fst (fst x), snd (fst x), snd x)) by reflexivity.
  exact (requests_are_built_from_the_document (mock no_faults) _ _ _ _ _ "hi"
           Hx eq_refl).
Defined.

Lemma responses_are_displayed_witness :
  answered (snd (main (mock no_faults) (visit (Some notes) true true "why?")
                   (loaded no_faults))).
Proof.
  set (x := main (mock no_faults) (visit (Some notes) true true "why?")
              (loaded no_faults)).
  assert (Hx : x = (fst (fst x), snd (fst x), snd x)) by reflexivity.
  exact (responses_are_displayed (mock no_faults) _ _ _ _ _ Hx).
Defined.

Lemma rows_report_what_was_received_witness :
  Forall (logged_to (visit (Some notes) true false "why?")
            (JDict [("type", JStr "k")]))
    (snd (main (mock no_faults) (visit (Some notes) true false "why?")
            (loaded no_faults))) /\
  (forall row rep,
     In (Called (CAppendRow row) rep)
       (snd (main (mock no_faults) (visit (Some notes) true false "why?")
               (loaded no_faults))) ->
     row_reports (visit (Some notes) true false "why?") "hi"
       (snd (main (mock no_faults) (visit (Some notes) true false "why?")
               (loaded no_faults))) row).
Proof.
  set (x := main (mock no_faults) (visit (Some notes) true false "why?")
              (loaded no_faults)).
  assert (Hx : x = (fst (fst x), snd (fst x), snd x)) by reflexivity.
  exact (rows_report_what_was_received (mock no_faults) _ _ _ _ _ "hi"
           (JDict [("type", JStr "k")]) Hx eq_refl eq_refl).
Defined.

Lemma session_fields_after_run_witness :
  initialised
    (session (snd (fst (main (mock no_faults)
                          (without_key (visit (Some notes) true true "why?"))
                          (loaded no_faults))))) /\
  gemini_api_key
    (session (snd (fst (main (mock no_faults)
                          (without_key (visit (Some notes) true true "why?"))
                          (loaded no_faults))))) = Some "secret".
Proof.
  set (x := main (mock no_faults)
              (without_key (visit (Some notes) true true "why?"))
              (loaded no_faults)).
  assert (Hx : x = (fst (fst x), snd (fst x), snd x)) by reflexivity.
  exact (session_fields_after_run (mock no_faults) _ _ _ _ _ Hx).
Defined.

Lemma credentials_are_replaced_or_kept_witness :
  fst (fst (main (mock only_bad_json) (visit (Some notes) true true "why?")
              (fresh only_bad_json))) = Raise (Exception "Expecting value") /\
  snd (fst (main (mock only_bad_json) (visit (Some notes) true true "why?")
              (fresh only_bad_json)))
  = keyed (mock only_bad_json) (visit (Some notes) true true "why?")
      (fresh only_bad_json) /\
  snd (main (mock only_bad_json) (visit (Some notes) true true "why?")
         (fresh only_bad_json)) = header.
Proof.
  set (x := main (mock only_bad_json) (visit (Some notes) true true "why?")
              (fresh only_bad_json)).
  assert (Hx : x = (fst (fst x), snd (fst x), snd x)) by reflexivity.
  exact (proj2 (credentials_are_replaced_or_kept (mock only_bad_json)
                  (visit (Some notes) true true "why?") (fresh only_bad_json)
                  _ _ _ eq_refl Hx)
           service_key (Exception "Expecting value") eq_refl eq_refl).
Defined.

Lemma summarization_needs_fresh_upload_witness :
  nonempty "secret" = true /\
  document_content (with_defaults (session (fresh no_faults))) = Some "" /\
  exists f, in_uploaded_file (visit (Some notes) false false "") = Some f.
Proof.
  set (x := main (mock no_faults) (visit (Some notes) false false "")
              (fresh no_faults)).
  assert (Hx : x = (fst (fst x), snd (fst x), snd x)) by reflexivity.
  apply (summarization_needs_fresh_upload (mock no_faults) _ _ _ _ _ Hx).
  vm_compute. discriminate.
Defined.

Lemma idle_rerun_calls_nothing_witness :
  calls_of (snd (main (mock no_faults) (visit (Some notes) false false "")
                   (loaded no_faults))) = [] /\
  document_content
    (session (snd (fst (main (mock no_faults) (visit (Some notes) false false "")
                          (loaded no_faults))))) = Some "hi" /\
  history_of
    (session (snd (fst (main (mock no_faults) (visit (Some notes) false false "")
                          (loaded no_faults)))))
  = history_of (session (loaded no_faults)).
Proof.
  set (x := main (mock no_faults) (visit (Some notes) false false "")
              (loaded no_faults)).
  assert (Hx : x = (fst (fst x), snd (fst x), snd x)) by reflexivity.
  exact (idle_rerun_calls_nothing (mock no_faults)
           (visit (Some notes) false false "") (loaded no_faults) "hi" _ _ _
           eq_refl eq_refl eq_refl eq_refl eq_refl Hx).
Defined.

Lemma history_is_displayed_witness :
  exists before,
    snd (main (mock no_faults) (visit (Some notes) false false "why?")
           (loaded no_faults))
    = (before
       ++ map shown_turn
            (history_of
               (session (snd (fst (main (mock no_faults)
                                     (visit (Some notes) false false "why?")
                                     (loaded no_faults)))))))%list.
Proof.
  set (x := main (mock no_faults) (visit (Some notes) false false "why?")
              (loaded no_faults)).
  assert (Hx : x = (Ok tt, snd (fst x), snd x)) by reflexivity.
  exact (history_is_displayed (mock no_faults)
           (visit (Some notes) false false "why?") (loaded no_faults) _ _ "hi"
           Hx eq_refl eq_refl eq_refl eq_refl).
Defined.

Lemma empty_content_is_summarized_again_witness :
  count OpConfigure
    (snd (run_session (mock no_faults)
            (repeat (visit (Some blank) false false "") 2) (fresh no_faults))) = 2 /\
  count OpSummarize
    (snd (run_session (mock no_faults)
            (repeat (visit (Some blank) false false "") 2) (fresh no_faults))) = 2.
Proof.
  destruct (empty_content_is_summarized_again (mock no_faults)
              (visit (Some blank) false false "") blank 2 (fresh no_faults)
              eq_refl (fun cf _ => ex_intro _ _ eq_refl) eq_refl eq_refl eq_refl)
    as (_ & Hconf & Hsum & _).
  split; [exact Hconf|]. apply Hsum.
  repeat split; intros; try eexists; reflexivity.
Defined.

Lemma chat_logged_iff_witness :
  count OpServiceAccount
    (snd (chat (mock no_faults) (visit (Some notes) false false "why?")
            (loaded no_faults))) = 1.
Proof.
  set (x := chat (mock no_faults) (visit (Some notes) false false "why?")
              (loaded no_faults)).
  assert (Hx : x = (fst (fst x), snd (fst x), snd x)) by reflexivity.
  assert (Hinit : initialised (session (loaded no_faults)))
    by (repeat split; discriminate).
  assert (Hin : exists m t, In (Called (CSendMessage m) (Responded (Ok t))) (snd x))
    by (exists (chat_prompt "hi" "why?"), "answer"; vm_compute; auto 10).
  destruct (chat_logged_iff (mock no_faults) _ _ _ _ _
              (JDict [("type", JStr "k")]) Hinit eq_refl Hx)
    as (Hlogged & _).
  apply (proj2 (Hlogged Hin)). split; [reflexivity | discriminate].
Defined.

Lemma analysis_and_quiz_never_raise_witness :
  fst (fst (propose_analysis (mock only_bad_sheet)
              (visit (Some notes) true false "") (loaded only_bad_sheet)))
  = Ok tt /\
  session (snd (fst (propose_analysis (mock only_bad_sheet)
                       (visit (Some notes) true false "")
                       (loaded only_bad_sheet))))
  = session (loaded only_bad_sheet) /\
  caught (snd (propose_analysis (mock only_bad_sheet)
                 (visit (Some notes) true false "") (loaded only_bad_sheet))).
Proof.
  set (x := propose_analysis (mock only_bad_sheet)
              (visit (Some notes) true false "") (loaded only_bad_sheet)).
  assert (Hx : x = (fst (fst x), snd (fst x), snd x)) by reflexivity.
  assert (Hinit : initialised (session (loaded only_bad_sheet)))
    by (repeat split; discriminate).
  exact (analysis_and_quiz_never_raise (mock only_bad_sheet) _ _ _ _ _
           Hinit (or_introl Hx)).
Defined.
